(** * FinSense backend: portfolio pipeline

    A shallow embedding of the portfolio code of [backend/portfolio.py] and
    of the [/portfolio] route of [backend/app.py], with the properties the
    design document states about them.

    Conventions of the embedding.
    - A Python [float] is an exact rational ([Q]); equality of numbers is
      [Qeq].  NaN, infinities and the rounding error of binary64 are outside
      the model; a NaN CSV cell only appears as the input marker [CNaN],
      which the code tests with [pd.isna] before any arithmetic.
    - A Python exception is a value of [exn]; code that can raise returns a
      [result].  [try: ... except Exception:] is [try_except].
    - A [dict] that is only looked up is a [gmap]; a [dict] that is iterated
      to build a list is an association list in insertion order.
    - The libraries the code calls (yfinance, PyPortfolioOpt, requests, the
      Groq client) are not part of the repository: they are fields of
      records of services, and every statement holds for all of them. *)

From Stdlib Require Import QArith Qround Qabs Qpower ZArith Lia Lqa String Ascii.
From stdpp Require Import base option list gmap strings fin_maps pretty.

(* ===================================================================== *)
(** * Part I: the embedding *)
(* ===================================================================== *)

(** ** Python values, exceptions and arithmetic *)

Module Py.

Inductive exn :=
| ZeroDivisionError
| KeyError (key : string)
| IndexError
| TypeError
| ExternalError (what : string).

Inductive result (A : Type) :=
| Ok (a : A)
| Raise (e : exn).
Arguments Ok {A} a.
Arguments Raise {A} e.

#[export] Instance result_ret : MRet result := @Ok.
#[export] Instance result_bind : MBind result :=
  λ A B f r, match r with Ok a => f a | Raise e => Raise e end.

(** [str(e)] as far as the model tells exceptions apart *)
Definition exn_str (e : exn) : string :=
  match e with
  | ZeroDivisionError => "float division by zero"
  | KeyError k => ("'" ++ k ++ "'")%string
  | IndexError => "list index out of range"
  | TypeError => "TypeError"
  | ExternalError what => what
  end.

(** [try: body  except Exception as e: handler e] *)
Definition try_except {A} (body : result A) (handler : exn → result A) : result A :=
  match body with
  | Ok a => Ok a
  | Raise e => handler e
  end.

Definition is_ok {A} (r : result A) : bool :=
  match r with Ok _ => true | Raise _ => false end.

(** [x < y] on numbers *)
Definition Qltb (x y : Q) : bool := negb (Qle_bool y x).

(** Rounding to the nearest integer, ties to the even one: what Python's
    [round] does on the exact value of its argument. *)
Definition round_half_even (x : Q) : Z :=
  let f := Qfloor x in
  match Qcompare (x - inject_Z f) (1 # 2) with
  | Lt => f
  | Gt => (f + 1)%Z
  | Eq => if Z.even f then f else (f + 1)%Z
  end.

(** [round(x, 2)] *)
Definition round2 (x : Q) : Q := (inject_Z (round_half_even (x * 100)) / 100)%Q.

(** [x / y] on Python floats: division by zero raises. *)
Definition pydiv (x y : Q) : result Q :=
  if Qeq_bool y 0 then Raise ZeroDivisionError else Ok (x / y)%Q.

(** [{k: f(v) for k, v in d.items()}] where [f] may raise *)
Definition dict_comprehension {A B} (f : A → result B) (d : gmap string A)
  : result (gmap string B) :=
  kvs ← mapM (λ kv : string * A, v ← f kv.2; mret (kv.1, v)) (map_to_list d);
  mret (list_to_map kvs).

(** [f"{x:.3f}"] *)
Definition fixed3 (x : Q) : string :=
  let n := Z.abs (round_half_even (x * 1000)) in
  let frac := pretty (Z.to_N (n mod 1000)) in
  ((if Qltb x 0 then "-" else "")
   ++ pretty (Z.to_N (n / 1000)) ++ "."
   ++ match String.length frac with
      | 1%nat => "00" ++ frac
      | 2%nat => "0" ++ frac
      | _ => frac
      end)%string.

(** The digits after the point of a number in [0, 1) whose decimal
    expansion ends within [fuel] digits. *)
Fixpoint frac_digits (fuel : nat) (r : Q) : string :=
  match fuel with
  | O => EmptyString
  | S fuel =>
      let d := Qfloor (r * 10) in
      let r' := (r * 10 - inject_Z d)%Q in
      (pretty (Z.to_N d) ++ (if Qeq_bool r' 0 then EmptyString else frac_digits fuel r'))%string
  end.

(** [str(x)] for a float with a short decimal expansion, such as the
    constants and the two-decimal values the code prints. *)
Definition str_float (x : Q) : string :=
  let a := Qabs x in
  let i := Qfloor a in
  ((if Qltb x 0 then "-" else "")
   ++ pretty (Z.to_N i) ++ "." ++ frac_digits 17 (a - inject_Z i)%Q)%string.

(** Something [float()] can be applied to: a number or a string. *)
Inductive pyscalar :=
| SNum (q : Q)
| SStr (s : string).

(** A cell of the holdings table: [None], NaN, or a scalar. *)
Inductive pycell :=
| CNone
| CNaN
| CVal (v : pyscalar).

End Py.

(** ** [portfolio.py]: [calculate_portfolio_metrics] *)

Module Metrics.
Import Py.
Local Open Scope Q_scope.

(** One row of [holdings]: [h['ticker']], [float(h['amount'])],
    [h.get('price')], and [h['sector']] when the key is present. *)
Record holding := {
  ticker : string;
  amount : Q;
  price : pycell;
  sector : option string }.

(** The fields of [yf.Ticker(t).info] that the code reads. *)
Record ticker_info := {
  regularMarketPrice : option Q;
  info_sector : option string;
  longName : option string }.

(** What the code calls and does not define. [None] stands for a raised
    exception. [portfolio_stats tickers weights data] is the pair
    [(np.dot(weights, mu.loc[tickers]), np.sqrt(w' S w))] of lines 178-181. *)
Record services := {
  float_of_str : string → option Q;
  yf_info : string → option ticker_info;
  yf_history : string → option (list Q);
  portfolio_stats : list string → list Q → gmap string (list Q) → option (Q * Q) }.

Inductive risk_level := Conservative | Moderate | Aggressive | NotAvailable.

Record metrics := {
  total_value : Q;
  expected_return : Q;
  risk : risk_level;
  sector_exposure : gmap string Q;
  diversification_score : Z;
  volatility : Q }.

(** [float(v)] *)
Definition py_float (svc : services) (v : pyscalar) : option Q :=
  match v with
  | SNum q => Some q
  | SStr s => float_of_str svc s
  end.

(** [price is not None and price != '' and not pd.isna(price)] *)
Definition price_given (c : pycell) : option pyscalar :=
  match c with
  | CNone | CNaN => None
  | CVal (SStr EmptyString) => None
  | CVal v => Some v
  end.

(** Lines 108-121: the price of one holding. *)
Definition resolve_price (svc : services) (h : holding) : Q :=
  match price_given (price h) with
  | Some v =>
      match py_float svc v with
      | Some q => q
      | None => 0
      end
  | None =>
      match yf_info svc (ticker h) with
      | Some info =>
          match regularMarketPrice info with
          | Some p => p
          | None => 0
          end
      | None => 0
      end
  end.

(** [s or 'Other'] *)
Definition or_other (s : option string) : string :=
  match s with
  | Some EmptyString | None => "Other"
  | Some s => s
  end.

(** Lines 123-131: the sector of one holding. *)
Definition resolve_sector (svc : services) (h : holding) : string :=
  match sector h with
  | Some (String c s) => String c s
  | _ =>
      match yf_info svc (ticker h) with
      | Some info => or_other (info_sector info)
      | None => "Other"
      end
  end.

(** Line 101: [amounts]; a later row of the same ticker overwrites. *)
Definition amounts_of (holdings : list holding) : gmap string Q :=
  foldl (λ d h, <[ticker h := amount h]> d) ∅ holdings.

(** Lines 104-131: the loop filling [prices] and [sectors]. *)
Definition prices_sectors (svc : services) (holdings : list holding)
  : gmap string Q * gmap string string :=
  foldl (λ ps h, (<[ticker h := resolve_price svc h]> ps.1,
                  <[ticker h := resolve_sector svc h]> ps.2))
        (∅, ∅) holdings.

(** [prices[t] * amounts[t]] *)
Definition value_of (prices amounts : gmap string Q) (t : string) : Q :=
  default 0 (prices !! t) * default 0 (amounts !! t).

(** Line 134 *)
Definition computed_sum (prices amounts : gmap string Q) (tickers : list string) : Q :=
  foldl (λ acc t, acc + value_of prices amounts t) 0 tickers.

(** Lines 136-140: [float(total_worth_from_csv)] replaces the sum unless
    the argument is [None] or [float] raises. *)
Definition overridden_total (svc : services) (sum : Q) (total_worth_from_csv : option pyscalar) : Q :=
  match total_worth_from_csv with
  | Some v =>
      match py_float svc v with
      | Some q => q
      | None => sum
      end
  | None => sum
  end.

(** Lines 141-142: [if total_value == 0: total_value = 1] *)
Definition effective_total (svc : services) (sum : Q) (total_worth_from_csv : option pyscalar) : Q :=
  let total_value := overridden_total svc sum total_worth_from_csv in
  if Qeq_bool total_value 0 then 1 else total_value.

(** Lines 145-148 *)
Definition sector_totals_of (prices amounts : gmap string Q) (sectors : gmap string string)
  (tickers : list string) : gmap string Q :=
  foldl (λ d t,
           let s := default "Other"%string (sectors !! t) in
           <[s := default 0 (d !! s) + value_of prices amounts t]> d)
        ∅ tickers.

(** Line 149 *)
Definition sector_exposure_of (sector_totals : gmap string Q) (total_value : Q)
  : result (gmap string Q) :=
  dict_comprehension (λ v, q ← pydiv (100 * v) total_value; mret (round2 q)) sector_totals.

(** Line 152 *)
Definition diversification_of (sectors : gmap string string) (tickers : list string) : Z :=
  Z.min 100 (Z.of_nat (size (map_img sectors : gset string)) * 15
             + Z.of_nat (length tickers) * 5).

(** Lines 155-163: the columns of [data]. *)
Definition history_frame (svc : services) (tickers : list string) : gmap string (list Q) :=
  foldl (λ d t,
           match yf_history svc t with
           | Some (x :: hist) => <[t := x :: hist]> d
           | _ => d
           end)
        ∅ tickers.

(** Line 176 *)
Definition weights_of (prices amounts : gmap string Q) (tickers : list string) (total_value : Q)
  : result (list Q) :=
  mapM (λ t, pydiv (value_of prices amounts t) total_value) tickers.

(** Lines 184-189 *)
Definition classify (port_volatility : Q) : risk_level :=
  if Qltb port_volatility 10 then Conservative
  else if Qltb port_volatility 18 then Moderate
  else Aggressive.

(** The values of the local variables of [calculate_portfolio_metrics],
    as functions of its arguments. *)
Definition tickers_of (holdings : list holding) : list string := ticker <$> holdings.
Definition prices_of (svc : services) (holdings : list holding) : gmap string Q :=
  (prices_sectors svc holdings).1.
Definition sectors_of (svc : services) (holdings : list holding) : gmap string string :=
  (prices_sectors svc holdings).2.
Definition holdings_sum (svc : services) (holdings : list holding) : Q :=
  computed_sum (prices_of svc holdings) (amounts_of holdings) (tickers_of holdings).
Definition denominator (svc : services) (holdings : list holding)
  (total_worth_from_csv : option pyscalar) : Q :=
  effective_total svc (holdings_sum svc holdings) total_worth_from_csv.
Definition sector_totals (svc : services) (holdings : list holding) : gmap string Q :=
  sector_totals_of (prices_of svc holdings) (amounts_of holdings) (sectors_of svc holdings)
    (tickers_of holdings).
Definition weights (svc : services) (holdings : list holding)
  (total_worth_from_csv : option pyscalar) : result (list Q) :=
  weights_of (prices_of svc holdings) (amounts_of holdings) (tickers_of holdings)
    (denominator svc holdings total_worth_from_csv).

Definition calculate_portfolio_metrics (svc : services) (holdings : list holding)
  (total_worth_from_csv : option pyscalar) : result metrics :=
  match holdings with
  | [] =>
      Ok {| total_value := 0; expected_return := 0; risk := NotAvailable;
            sector_exposure := ∅; diversification_score := 0; volatility := 0 |}
  | _ =>
      let tickers := tickers_of holdings in
      let total_value := denominator svc holdings total_worth_from_csv in
      exposure ← sector_exposure_of (sector_totals svc holdings) total_value;
      let score := diversification_of (sectors_of svc holdings) tickers in
      let data := history_frame svc tickers in
      if decide (data = ∅) then
        Ok {| total_value := round2 total_value; expected_return := 0;
              risk := NotAvailable; sector_exposure := exposure;
              diversification_score := score; volatility := 0 |}
      else
        w ← weights svc holdings total_worth_from_csv;
        match portfolio_stats svc tickers w data with
        | None => Raise (ExternalError "numpy")
        | Some (r, v) =>
            let port_return := r * 100 in
            let port_volatility := v * 100 in
            Ok {| total_value := round2 total_value;
                  expected_return := round2 port_return;
                  risk := classify port_volatility;
                  sector_exposure := exposure;
                  diversification_score := score;
                  volatility := round2 port_volatility |}
        end
  end.

End Metrics.

(** ** Strings: the [str] methods and the regular expression the code uses *)

Module Text.

Definition code (c : ascii) : N := N_of_ascii c.

Definition is_upper (c : ascii) : bool := (65 <=? code c)%N && (code c <=? 90)%N.
Definition is_lower (c : ascii) : bool := (97 <=? code c)%N && (code c <=? 122)%N.
Definition is_digit (c : ascii) : bool := (48 <=? code c)%N && (code c <=? 57)%N.

(** [\w] on ASCII text: a letter, a digit or the underscore *)
Definition is_word (c : ascii) : bool :=
  is_upper c || is_lower c || is_digit c || (code c =? 95)%N.

(** [str.isspace] on ASCII text *)
Definition is_space (c : ascii) : bool :=
  ((9 <=? code c)%N && (code c <=? 13)%N)
  || ((28 <=? code c)%N && (code c <=? 32)%N).

(** [s.lower()] on ASCII text *)
Definition lower_char (c : ascii) : ascii :=
  if is_upper c then ascii_of_N (code c + 32) else c.

Fixpoint lower (s : string) : string :=
  match s with
  | EmptyString => EmptyString
  | String c s' => String (lower_char c) (lower s')
  end.

(** [needle in hay] *)
Fixpoint contains (needle hay : string) : bool :=
  String.prefix needle hay ||
  match hay with
  | EmptyString => false
  | String _ hay' => contains needle hay'
  end.

(** [s.split(sep)] for a one-character separator *)
Fixpoint split (sep : ascii) (s : string) : list string :=
  match s with
  | EmptyString => [EmptyString]
  | String c s' =>
      if Ascii.eqb c sep then EmptyString :: split sep s'
      else match split sep s' with
           | [] => [String c EmptyString]
           | w :: ws => String c w :: ws
           end
  end.

Fixpoint lstrip (s : string) : string :=
  match s with
  | EmptyString => EmptyString
  | String c s' => if is_space c then lstrip s' else s
  end.

(** [s.rstrip()]: a character is dropped when all that follows was dropped *)
Fixpoint rstrip (s : string) : string :=
  match s with
  | EmptyString => EmptyString
  | String c s' =>
      match rstrip s' with
      | EmptyString => if is_space c then EmptyString else String c EmptyString
      | r => String c r
      end
  end.

(** [s.strip()] *)
Definition strip (s : string) : string := rstrip (lstrip s).

(** [", ".join(l)] *)
Fixpoint join (sep : string) (l : list string) : string :=
  match l with
  | [] => EmptyString
  | [x] => x
  | x :: l' => x ++ sep ++ join sep l'
  end.

(** *** [re.compile(r'\b([A-Z]{2,5})\b')] *)

(** [\b] between two neighbouring positions; [None] is an end of the text. *)
Definition boundary (before after : option ascii) : bool :=
  xorb (from_option is_word false before) (from_option is_word false after).

(** [[A-Z]{k}\b] at the head of [s], the character before [s] being a
    boundary already: the [k] characters when they match. *)
Definition match_len (k : nat) (s : list ascii) : option (list ascii) :=
  let m := take k s in
  if (length m =? k)%nat && forallb is_upper m && boundary (last m) (head (drop k s))
  then Some m else None.

(** [\b[A-Z]{2,5}\b] at the head of [s]: the quantifier is greedy, so five
    letters are tried first, then four, three and two. *)
Definition match_here (before : option ascii) (s : list ascii) : option (list ascii) :=
  if boundary before (head s) then
    match match_len 5 s with
    | Some m => Some m
    | None =>
        match match_len 4 s with
        | Some m => Some m
        | None =>
            match match_len 3 s with
            | Some m => Some m
            | None => match_len 2 s
            end
        end
    end
  else None.

(** [finditer]: the matches from left to right, without overlap. [fuel]
    bounds the number of positions tried. *)
Fixpoint finditer_from (fuel : nat) (before : option ascii) (s : list ascii) : list string :=
  match fuel with
  | O => []
  | S fuel =>
      match s with
      | [] => []
      | c :: s' =>
          match match_here before s with
          | Some m => string_of_list_ascii m
                        :: finditer_from fuel (last m) (drop (length m) s)
          | None => finditer_from fuel (Some c) s'
          end
      end
  end.

Definition finditer (text : string) : list string :=
  let s := list_ascii_of_string text in
  finditer_from (length s) None s.

End Text.

(** ** Insertion-ordered dictionaries with string keys *)

Module ODict.
Section ordered_dict.
Context {V : Type}.

(** [d[k] = v]: an existing key keeps its place, a new key goes last. *)
Fixpoint set (k : string) (v : V) (d : list (string * V)) : list (string * V) :=
  match d with
  | [] => [(k, v)]
  | (k', v') :: d' =>
      if decide (k = k') then (k, v) :: d' else (k', v') :: set k v d'
  end.

(** [d.get(k)] *)
Fixpoint get (k : string) (d : list (string * V)) : option V :=
  match d with
  | [] => None
  | (k', v') :: d' => if decide (k = k') then Some v' else get k d'
  end.

(** The dictionary holding the given items, inserted one after the other. *)
Definition of_items (items : list (string * V)) : list (string * V) :=
  foldl (λ d kv, set kv.1 kv.2 d) [] items.

End ordered_dict.
End ODict.

(** ** [portfolio.py]: [optimize_portfolio] *)

Module Optimize.
Import Py.
Local Open Scope Q_scope.

(** What the code calls and does not define. [history t] is the [Close]
    column of [yf.Ticker(t).history(period='1y')]; [max_sharpe_portfolio]
    stands for lines 49-58 and gives the items of [ef.clean_weights()] and
    the triple of [ef.portfolio_performance()]. *)
Record services := {
  float_of_str : string → option Q;
  history : string → result (list Q);
  max_sharpe_portfolio :
    list (string * list Q) → result (list (string * Q) * (Q * Q * Q)) }.

Record allocation := {
  ticker : string;
  current_amount : Q;
  optimal_weight : Q;
  optimal_amount : Q }.

Record performance_t := {
  expected_return : Q;
  volatility : Q;
  sharpe_ratio : Q }.

Record response := {
  error : option string;
  allocations : list allocation;
  performance : option performance_t }.

(** Lines 9-22: the holdings string, e.g. [AAPL:100,MSFT:50]. *)
Definition parse_holdings (svc : services) (holdings_str : string) : list (string * Q) :=
  foldl (λ holdings holding,
           if negb (Text.contains ":" holding) then holdings
           else match Text.split ":" holding with
                | [ticker; amount] =>
                    match float_of_str svc (Text.strip amount) with
                    | Some a => ODict.set (Text.strip ticker) a holdings
                    | None => holdings
                    end
                | _ => holdings
                end)
        [] (Text.strip <$> Text.split "," holdings_str).

(** Lines 35-39: the columns of [data]; [history] may raise. *)
Fixpoint fetch_data (svc : services) (tickers : list string) (data : list (string * list Q))
  : result (list (string * list Q)) :=
  match tickers with
  | [] => Ok data
  | t :: rest =>
      hist ← history svc t;
      fetch_data svc rest (match hist with [] => data | _ => ODict.set t hist data end)
  end.

(** [d[k]] *)
Definition getitem {V} (d : list (string * V)) (k : string) : result V :=
  match ODict.get k d with
  | Some v => Ok v
  | None => Raise (KeyError k)
  end.

(** Lines 61-69: the loop over [cleaned_weights.items()]. *)
Fixpoint format_allocations (holdings cleaned_weights items : list (string * Q))
  : result (list allocation) :=
  match items with
  | [] => Ok []
  | (ticker, weight) :: rest =>
      if Qltb 0 weight then
        current ← getitem holdings ticker;
        w ← getitem cleaned_weights ticker;
        q ← pydiv (current * weight) w;
        more ← format_allocations holdings cleaned_weights rest;
        mret ({| ticker := ticker;
                 current_amount := current;
                 optimal_weight := round2 (weight * 100);
                 optimal_amount := round2 q |} :: more)
      else format_allocations holdings cleaned_weights rest
  end.

Definition failure (msg : string) : response :=
  {| error := Some msg; allocations := []; performance := None |}.

Definition optimize_portfolio (svc : services) (holdings_str : string) : response :=
  let holdings := parse_holdings svc holdings_str in
  match holdings with
  | [] => failure "Invalid portfolio format. Please use format: AAPL:100,MSFT:50"
  | _ =>
      let body : result response :=
        data ← fetch_data svc holdings.*1 [];
        match data with
        | [] => mret (failure "Could not fetch stock data")
        | _ =>
            '(items, perf) ← max_sharpe_portfolio svc data;
            let cleaned_weights := ODict.of_items items in
            allocations ← format_allocations holdings cleaned_weights cleaned_weights;
            mret {| error := None;
                    allocations := allocations;
                    performance :=
                      Some {| expected_return := round2 (perf.1.1 * 100);
                              volatility := round2 (perf.1.2 * 100);
                              sharpe_ratio := round2 perf.2 |} |}
        end in
      match body with
      | Ok r => r
      | Raise e => failure ("Error optimizing portfolio: " ++ exn_str e)
      end
  end.

End Optimize.

(** ** Calls to the outside world, as a trace *)

Module Trace.
Import Py.

(** The methods of [EfficientFrontier] and the estimators of PyPortfolioOpt *)
Inductive solver_call :=
| Estimate (columns : list string)
| NewFrontier
| EfficientRisk (target_volatility : Q)
| MinVolatility
| MaxSharpe
| CleanWeights
| PortfolioPerformance.

Inductive event :=
| Sleep (seconds : Q)
| GroqCall (attempt : nat)
| PolygonGet (ticker : string) (from_date to_date : Z)
| SolverCall (call : solver_call).

(** A computation that may raise and that leaves a trace of its calls; the
    trace of what ran before an exception is kept. *)
Definition traced (A : Type) : Type := (result A * list event)%type.

#[export] Instance traced_ret : MRet traced := λ A a, (Ok a, []).
#[export] Instance traced_bind : MBind traced :=
  λ A B f m,
    match m.1 with
    | Ok a => ((f a).1, m.2 ++ (f a).2)
    | Raise e => (Raise e, m.2)
    end.

Definition emit (e : event) : traced unit := (Ok tt, [e]).
Definition lift {A} (r : result A) : traced A := (r, []).
Definition raise {A} (e : exn) : traced A := (Raise e, []).

(** [try: body  except Exception as e: handler e] *)
Definition try_catch {A} (body : traced A) (handler : exn → traced A) : traced A :=
  match body.1 with
  | Ok a => body
  | Raise e => ((handler e).1, body.2 ++ (handler e).2)
  end.

(** A call of the solver: the call is recorded, then its outcome is used. *)
Definition solver {A} (call : solver_call) (outcome : result A) : traced A :=
  (outcome, [SolverCall call]).


Definition sleeps (log : list event) : list Q :=
  omap (λ e, match e with Sleep d => Some d | _ => None end) log.

Definition groq_calls (log : list event) : list nat :=
  omap (λ e, match e with GroqCall n => Some n | _ => None end) log.

End Trace.

(** ** [app.py]: [groq_generate_content] *)

Module Groq.
Import Py Trace.
Local Open Scope Q_scope.

(** One call of [groq_client.chat.completions.create] and the reading of
    its answer: a text, or an exception with its message [str(e)]. *)
Inductive outcome :=
| Completion (text : string)
| Failure (error_msg : string).

(** Line 162 *)
Definition is_rate_limit (error_msg : string) : bool :=
  Text.contains "429" error_msg || Text.contains "rate limit" (Text.lower error_msg).

(** The loop [for attempt in range(retries)], from [attempt] on, with
    [remaining] iterations to go. [client n] is the outcome of call [n]. *)
Fixpoint attempts (client : nat → outcome) (retries remaining attempt : nat) (delay : Q)
  : traced string :=
  match remaining with
  | O => mret "Unable to generate AI analysis after multiple attempts"%string
  | S remaining =>
      _ ← emit (GroqCall attempt);
      match client attempt with
      | Completion text => mret text
      | Failure error_msg =>
          if is_rate_limit error_msg then
            _ ← emit (Sleep delay);
            attempts client retries remaining (S attempt) (delay * 2)
          else if (S attempt =? retries)%nat then
            mret ("Unable to generate AI analysis due to: " ++ error_msg)%string
          else
            _ ← emit (Sleep delay);
            attempts client retries remaining (S attempt) (delay * 2)
      end
  end.

Definition groq_generate_content (client : nat → outcome) (retries : nat) (delay : Q)
  : traced string :=
  attempts client retries retries 0 delay.

End Groq.

(** ** [app.py]: the historical series *)

Module History.
Import Py Trace.
Local Open Scope Z_scope.

(** *** [get_alpha_vantage_history_batch] *)

(** The answer to one request. A row of ['Monthly Adjusted Time Series'] is
    given by what [datetime.strptime] and [float] make of it, [None] when
    they raise; a missing table is the empty list. *)
Inductive av_response :=
| AvRaise
| AvStatus (status_code : Z) (rows : list (option Z * option Q)).

(** Line 1174: the dict comprehension; [None] when a row raises. *)
Fixpoint parse_rows (rows : list (option Z * option Q)) (series : gmap Z Q)
  : option (gmap Z Q) :=
  match rows with
  | [] => Some series
  | (Some d, Some v) :: rest => parse_rows rest (<[d := v]> series)
  | _ => None
  end.

(** Lines 1167-1181 for one ticker: [Some s] when [all_data[ticker] = s] is
    executed, [None] when the ticker is left out. *)
Definition av_series (from_date to_date : Z) (r : av_response) : option (gmap Z Q) :=
  match r with
  | AvRaise => None
  | AvStatus status_code rows =>
      if status_code =? 200 then
        match rows with
        | [] => None
        | _ =>
            series ← parse_rows rows ∅;
            let filtered :=
              filter (λ dv, from_date ≤ dv.1 ∧ dv.1 ≤ to_date) series in
            if decide (filtered = ∅) then None else Some filtered
        end
      else None
  end.

(** The loop over [tickers]; [provider i t] answers the request made at
    position [i] of the list, for ticker [t]. *)
Fixpoint av_loop (provider : nat → string → av_response) (from_date to_date : Z)
  (i : nat) (tickers : list string) (all_data : gmap string (gmap Z Q))
  : gmap string (gmap Z Q) :=
  match tickers with
  | [] => all_data
  | t :: rest =>
      av_loop provider from_date to_date (S i) rest
        (match av_series from_date to_date (provider i t) with
         | Some s => <[t := s]> all_data
         | None => all_data
         end)
  end.

Definition get_alpha_vantage_history_batch (provider : nat → string → av_response)
  (tickers : list string) (from_date to_date : Z) : gmap string (gmap Z Q) :=
  av_loop provider from_date to_date 0 tickers ∅.

(** [ticker in data.columns and not data[ticker].dropna().empty] *)
Definition has_data (data : gmap string (gmap Z Q)) (ticker : string) : bool :=
  match data !! ticker with
  | Some s => bool_decide (s ≠ ∅)
  | None => false
  end.

(** *** [get_polygon_history_batch] *)

Inductive http_outcome :=
| HttpRaise
| HttpStatus (status_code : Z) (results : list (Z * Q)).

(** Lines 1138-1157: the three attempts on the reduced range. The result is
    the series stored by the [break] branch, if any. *)
Fixpoint reduced_attempts (get : nat → http_outcome) (ticker : string)
  (five_years_ago to_date : Z) (remaining attempt : nat) : traced (option (list (Z * Q))) :=
  match remaining with
  | O => mret None
  | S remaining =>
      _ ← emit (PolygonGet ticker five_years_ago to_date);
      match get attempt with
      | HttpRaise =>
          _ ← emit (Sleep 2);
          reduced_attempts get ticker five_years_ago to_date remaining (S attempt)
      | HttpStatus status_code results =>
          if status_code =? 200 then
            match results with
            | [] => reduced_attempts get ticker five_years_ago to_date remaining (S attempt)
            | _ => mret (Some results)
            end
          else if status_code =? 429 then
            _ ← emit (Sleep 5);
            reduced_attempts get ticker five_years_ago to_date remaining (S attempt)
          else
            reduced_attempts get ticker five_years_ago to_date remaining (S attempt)
      end
  end.

(** Lines 1125-1160 for one ticker. [full] answers the request over the
    whole range, [reduced n] the [n]-th request over the reduced one. *)
Definition polygon_ticker (full : http_outcome) (reduced : nat → http_outcome)
  (ticker : string) (from_date to_date : Z) : traced (option (list (Z * Q))) :=
  _ ← emit (PolygonGet ticker from_date to_date);
  match full with
  | HttpRaise => mret None
  | HttpStatus status_code results =>
      match (status_code =? 200), results with
      | true, _ :: _ => mret (Some results)
      | _, _ => reduced_attempts reduced ticker (to_date - 365 * 5) to_date 3 0
      end
  end.

(** The loop over [tickers]; [provider i t None] answers the first request
    for the ticker at position [i], [provider i t (Some n)] its [n]-th
    request over the reduced range. *)
Fixpoint polygon_loop (provider : nat → string → option nat → http_outcome)
  (from_date to_date : Z) (i : nat) (tickers : list string)
  (all_data : gmap string (list (Z * Q))) : traced (gmap string (list (Z * Q))) :=
  match tickers with
  | [] => mret all_data
  | t :: rest =>
      s ← polygon_ticker (provider i t None) (λ n, provider i t (Some n)) t from_date to_date;
      polygon_loop provider from_date to_date (S i) rest
        (match s with Some s => <[t := s]> all_data | None => all_data end)
  end.

Definition get_polygon_history_batch (provider : nat → string → option nat → http_outcome)
  (tickers : list string) (from_date to_date : Z) : traced (gmap string (list (Z * Q))) :=
  polygon_loop provider from_date to_date 0 tickers ∅.

End History.

(** ** [app.py]: the [/portfolio] route *)

Module Route.
Import Py Trace.
Local Open Scope Q_scope.

(** A row of the uploaded table once the [TOTAL_WORTH] row is taken out;
    [amount] and [price] are what [float(h['amount'])] and
    [float(h['price'])] give, for a table whose cells are numbers. *)
Record holding := {
  ticker : string;
  amount : Q;
  price : Q }.

Record request := {
  risk_tolerance : string;
  holdings : list holding;
  total_worth : option Q;
  today : Z }.

(** What [ef.min_volatility()] returns, as far as line 757 tells: something
    with a [get] method, given by its items, or anything else, used as a
    number. *)
Inductive min_vol_result :=
| MinVolDict (items : list (string * Q))
| MinVolNumber (v : Q).

(** PyPortfolioOpt. [estimates] is the pair [(mu, S)], [frontier] the state
    of an [EfficientFrontier] object; a method returns its outcome and the
    state it leaves the object in, also when it raises. *)
Record solver_ops := {
  estimates : Type;
  frontier : Type;
  estimate : list (string * gmap Z Q) → result estimates;
  new_frontier : estimates → result frontier;
  efficient_risk : frontier → Q → result unit * frontier;
  min_volatility : frontier → result min_vol_result * frontier;
  max_sharpe : frontier → result unit * frontier;
  clean_weights : frontier → result (list (string * Q));
  portfolio_performance : frontier → result (Q * Q * Q) }.

Record services := {
  market : Metrics.services;
  alpha_vantage : nat → string → History.av_response;
  optimizer : solver_ops;
  groq : nat → Groq.outcome }.

(** Lines 757-760 *)
Definition min_vol_value_of (min_vol : min_vol_result) : result Q :=
  match min_vol with
  | MinVolDict items =>
      match ODict.of_items items with
      | [] => Raise IndexError
      | (k, first) :: d => Ok (default first (ODict.get "fun" ((k, first) :: d)))
      end
  | MinVolNumber v => Ok v
  end.

(** Line 765 *)
Definition warning_too_low (target_volatility min_vol_value : Q) : string :=
  ("Requested target volatility " ++ str_float target_volatility
   ++ " was too low. Used minimum achievable volatility "
   ++ fixed3 min_vol_value ++ " instead.")%string.

(** Line 769 *)
Definition warning_max_sharpe : string :=
  "Could not achieve target volatility. Using maximum Sharpe ratio portfolio instead.".

(** The outcome of lines 750-773: the frontier object that [clean_weights]
    will read, [used_volatility] and [warning_vol]. *)
Record ladder_result (ops : solver_ops) := {
  ef : frontier ops;
  used_volatility : option Q;
  warning_vol : option string }.
Arguments ef {ops} _.
Arguments used_volatility {ops} _.
Arguments warning_vol {ops} _.

(** Lines 761-769: the retry on a fresh frontier and the last resort. *)
Definition retry_min_vol (ops : solver_ops) (mu_S : estimates ops)
  (target_volatility min_vol_value : Q) : traced (ladder_result ops) :=
  ef ← solver NewFrontier (new_frontier ops mu_S);
  let run := efficient_risk ops ef min_vol_value in
  try_catch
    (_ ← solver (EfficientRisk min_vol_value) run.1;
     mret {| ef := run.2;
             used_volatility := Some min_vol_value;
             warning_vol := Some (warning_too_low target_volatility min_vol_value) |})
    (λ _,
       let last := max_sharpe ops run.2 in
       _ ← solver MaxSharpe last.1;
       mret {| ef := last.2;
               used_volatility := None;
               warning_vol := Some warning_max_sharpe |}).

(** Lines 750-773 *)
Definition volatility_ladder (ops : solver_ops) (mu_S : estimates ops) (ef0 : frontier ops)
  (target_volatility : option Q) : traced (ladder_result ops) :=
  match target_volatility with
  | Some target =>
      let run := efficient_risk ops ef0 target in
      try_catch
        (_ ← solver (EfficientRisk target) run.1;
         mret {| ef := run.2; used_volatility := Some target; warning_vol := None |})
        (λ _,
           let mv := min_volatility ops run.2 in
           min_vol ← solver MinVolatility mv.1;
           min_vol_value ← lift (min_vol_value_of min_vol);
           retry_min_vol ops mu_S target min_vol_value)
  | None =>
      let run := max_sharpe ops ef0 in
      _ ← solver MaxSharpe run.1;
      mret {| ef := run.2; used_volatility := None; warning_vol := None |}
  end.

(** Lines 742-773: the branch on [risk_tolerance], then the ladder. *)
Definition optimize_weights (ops : solver_ops) (mu_S : estimates ops) (ef0 : frontier ops)
  (risk_tolerance : string) : traced (ladder_result ops) :=
  if decide (risk_tolerance = "Conservative") then
    volatility_ladder ops mu_S ef0 (Some 0.10)
  else if decide (risk_tolerance = "Aggressive") then
    let run := max_sharpe ops ef0 in
    _ ← solver MaxSharpe run.1;
    volatility_ladder ops mu_S run.2 None
  else
    volatility_ladder ops mu_S ef0 (Some 0.15).

(** *** Allocations and recommended actions *)

Record current_entry := {
  c_ticker : string;
  c_company_name : string;
  c_amount : Q;
  c_value : Q;
  c_percentage : Q }.

(** An entry of [optimized_allocation]. [o_price] and [o_shares] are [None]
    when the key is absent or holds [None]; the code treats both alike. *)
Record optimized_entry := {
  o_ticker : string;
  o_company_name : string;
  optimal_percentage : Q;
  o_price : option Q;
  o_shares : option Z }.

Inductive action_kind := Increase | Reduce.

(** A recommended action; [magnitude] is the number printed in [details]. *)
Record action := {
  kind : action_kind;
  a_ticker : string;
  a_company_name : string;
  magnitude : Q;
  details : string }.

(** Lines 788-792 and 802-806 *)
Definition company_name (mkt : Metrics.services) (t : string) : string :=
  match Metrics.yf_info mkt t with
  | Some info => default t (Metrics.longName info)
  | None => t
  end.

(** Line 777 *)
Definition total_value_of (valid_holdings : list holding) : Q :=
  foldl (λ acc h, acc + amount h * price h) 0 valid_holdings.

(** Lines 782-799 *)
Definition current_allocation_of (mkt : Metrics.services) (valid_holdings : list holding)
  (total_value : Q) : list current_entry :=
  (λ h,
     let value := amount h * price h in
     {| c_ticker := ticker h;
        c_company_name := company_name mkt (ticker h);
        c_amount := amount h;
        c_value := value;
        c_percentage :=
          if Qeq_bool total_value 0 then 0 else round2 (100 * value / total_value) |})
  <$> valid_holdings.

(** Lines 801-811 *)
Definition optimized_allocation_of (mkt : Metrics.services)
  (cleaned_weights : list (string * Q)) : list optimized_entry :=
  (λ tw : string * Q,
     {| o_ticker := tw.1;
        o_company_name := company_name mkt tw.1;
        optimal_percentage := round2 (100 * tw.2);
        o_price := None;
        o_shares := None |})
  <$> cleaned_weights.

(** Line 815 *)
Definition curr_pct_map_of (current_allocation : list current_entry) : gmap string Q :=
  foldl (λ d c, <[c_ticker c := c_percentage c]> d) ∅ current_allocation.

(** Lines 817-835 for one entry of [optimized_allocation] *)
Definition action_for (curr_pct_map : gmap string Q) (opt : optimized_entry) : list action :=
  let ticker := o_ticker opt in
  let curr_pct := default 0 (curr_pct_map !! ticker) in
  let diff := optimal_percentage opt - curr_pct in
  if Qltb (Qabs diff) 1 then []
  else if Qltb 0 diff then
    [ {| kind := Increase; a_ticker := ticker; a_company_name := o_company_name opt;
         magnitude := round2 diff;
         details := ("Increase " ++ ticker ++ " by " ++ str_float (round2 diff)
                     ++ "% of portfolio")%string |} ]
  else
    [ {| kind := Reduce; a_ticker := ticker; a_company_name := o_company_name opt;
         magnitude := Qabs (round2 diff);
         details := ("Reduce " ++ ticker ++ " by " ++ str_float (Qabs (round2 diff))
                     ++ "% of portfolio")%string |} ].

(** Lines 814-835 *)
Definition actions_of (current_allocation : list current_entry)
  (optimized_allocation : list optimized_entry) : list action :=
  let curr_pct_map := curr_pct_map_of current_allocation in
  optimized_allocation ≫= action_for curr_pct_map.

(** *** Tickers suggested by the analysis text *)

(** Lines 911-917 *)
Definition ai_suggested_of (optimized_allocation : list optimized_entry)
  (ai_analysis : string) : gset string :=
  let existing_opt_tickers : gset string := list_to_set (o_ticker <$> optimized_allocation) in
  list_to_set
    (filter (λ t, (t ∉ existing_opt_tickers) ∧ (t ∉ ["ETF"; "AI"]))
            (Text.finditer ai_analysis)).

(** Lines 919-924, [count] being [len(ai_suggested)] *)
Definition per_ticker_pct_of (count : nat) : Q :=
  let default_pct := 5%Z in
  if decide (0 < count)%nat then
    let total_default := Z.min 15 (Z.of_nat count * default_pct) in
    round2 (inject_Z total_default / inject_Z (Z.of_nat count))
  else 0.

(** [int((pct / 100 * total_value) // price)] when [price and total_value],
    else [0] *)
Definition shares_for (pct total_value : Q) (price : option Q) : Z :=
  match price with
  | Some p =>
      if Qeq_bool p 0 || Qeq_bool total_value 0 then 0%Z
      else Qfloor (pct / 100 * total_value / p)
  | None => 0%Z
  end.

(** Lines 927-948 for one suggested ticker *)
Definition suggested_entry (mkt : Metrics.services) (per_ticker_pct total_value : Q)
  (ticker : string) : optimized_entry :=
  match Metrics.yf_info mkt ticker with
  | Some info =>
      let price := Metrics.regularMarketPrice info in
      {| o_ticker := ticker;
         o_company_name := default ticker (Metrics.longName info);
         optimal_percentage := per_ticker_pct;
         o_price := price;
         o_shares := Some (shares_for per_ticker_pct total_value price) |}
  | None =>
      {| o_ticker := ticker;
         o_company_name := ticker;
         optimal_percentage := per_ticker_pct;
         o_price := None;
         o_shares := Some 0%Z |}
  end.

(** Lines 908-948. Python leaves the order in which a [set] is iterated
    open; the model takes the order of [elements]. *)
Definition merge_suggested (mkt : Metrics.services) (total_value : Q)
  (optimized_allocation : list optimized_entry) (ai_analysis : string)
  : list optimized_entry :=
  let ai_suggested := ai_suggested_of optimized_allocation ai_analysis in
  let per_ticker_pct := per_ticker_pct_of (size ai_suggested) in
  optimized_allocation
  ++ (suggested_entry mkt per_ticker_pct total_value <$> elements ai_suggested).

(** Lines 950-965 for one entry *)
Definition fill_price_shares (mkt : Metrics.services) (total_value : Q)
  (o : optimized_entry) : optimized_entry :=
  let price :=
    match o_price o with
    | Some p => Some p
    | None =>
        match Metrics.yf_info mkt (o_ticker o) with
        | Some info => Metrics.regularMarketPrice info
        | None => None
        end
    end in
  {| o_ticker := o_ticker o;
     o_company_name := o_company_name o;
     optimal_percentage := optimal_percentage o;
     o_price := price;
     o_shares :=
       match o_shares o with
       | Some n => Some n
       | None => Some (shares_for (optimal_percentage o) total_value price)
       end |}.

(** *** The route *)

Record payload := {
  metrics : Metrics.metrics;
  top_holdings : list current_entry;
  projected_value : Q;
  projected_return : Q;
  optimized_risk_level : string;
  recommended_actions : list action;
  optimized_allocation : list optimized_entry;
  warning : option string;
  volatility_warning : option string;
  ai_analysis : string;
  total_worth_from_csv : option Q }.

(** [jsonify(...)] with its status code *)
Inductive http_response :=
| Json200 (body : payload)
| Json400 (error : string)
| Json500 (details : string).

(** Lines 714-721 *)
Definition split_holdings (data : gmap string (gmap Z Q)) (holdings : list holding)
  : list holding * list string :=
  foldl (λ vf h,
           if History.has_data data (ticker h) then (vf.1 ++ [h], vf.2)
           else (vf.1, vf.2 ++ [ticker h]))
        ([], []) holdings.

(** Line 1003 *)
Definition warning_failed (failed_tickers : list string) : string :=
  ("Warning: Could not fetch data for: " ++ Text.join ", " failed_tickers
   ++ ". These tickers were excluded from optimization.")%string.

(** The row handed to [calculate_portfolio_metrics] *)
Definition metrics_row (h : holding) : Metrics.holding :=
  {| Metrics.ticker := ticker h;
     Metrics.amount := amount h;
     Metrics.price := CVal (SNum (price h));
     Metrics.sector := None |}.

(** Lines 703-1007, from the parsed table to the answer. News and sector
    performance only feed the prompt and are left out. *)
Definition portfolio_body (svc : services) (req : request) : traced http_response :=
  metrics ← lift (Metrics.calculate_portfolio_metrics (market svc)
                    (metrics_row <$> holdings req) (SNum <$> total_worth req));
  let one_year_ago := (today req - 365)%Z in
  let data := History.get_alpha_vantage_history_batch (alpha_vantage svc)
                (ticker <$> holdings req) one_year_ago (today req) in
  let split := split_holdings data (holdings req) in
  let valid_holdings := split.1 in
  let failed_tickers := split.2 in
  match valid_holdings with
  | [] => mret (Json400 "No valid tickers found for optimization")
  | _ =>
      let ops := optimizer svc in
      let tickers := ticker <$> valid_holdings in
      let selected := (λ t, (t, default ∅ (data !! t))) <$> tickers in
      mu_S ← solver (Estimate tickers) (estimate ops selected);
      ef0 ← solver NewFrontier (new_frontier ops mu_S);
      chosen ← optimize_weights ops mu_S ef0 (risk_tolerance req);
      cleaned ← solver CleanWeights (clean_weights ops (ef chosen));
      opt_perf ← solver PortfolioPerformance (portfolio_performance ops (ef chosen));
      let cleaned_weights := ODict.of_items cleaned in
      let total_value := total_value_of valid_holdings in
      let current_allocation := current_allocation_of (market svc) valid_holdings total_value in
      let optimized := optimized_allocation_of (market svc) cleaned_weights in
      let actions := actions_of current_allocation optimized in
      ai_analysis ← Groq.groq_generate_content (groq svc) 3 1;
      let merged := merge_suggested (market svc) total_value optimized ai_analysis in
      mret (Json200
        {| metrics := metrics;
           top_holdings := take 5 current_allocation;
           projected_value := total_value * (1 + opt_perf.1.1);
           projected_return := round2 (opt_perf.1.1 * 100);
           optimized_risk_level := risk_tolerance req;
           recommended_actions := actions;
           optimized_allocation := fill_price_shares (market svc) total_value <$> merged;
           warning :=
             match failed_tickers with
             | [] => warning_vol chosen
             | _ => Some (warning_failed failed_tickers)
             end;
           volatility_warning := warning_vol chosen;
           ai_analysis := ai_analysis;
           total_worth_from_csv := total_worth req |})
  end.

(** The route with its last [except Exception]: the answer and the trace. *)
Definition portfolio (svc : services) (req : request) : http_response * list event :=
  let run := portfolio_body svc req in
  (match run.1 with
   | Ok answer => answer
   | Raise e => Json500 (exn_str e)
   end, run.2).

End Route.

(** ** [app.py]: helpers of the other routes *)

Module App.
Import Py Trace.
Local Open Scope Q_scope.

(** *** [safe_score] and the competitors of the [/fundamental] route *)













(** *** [analyze_sentiment_with_cache] *)

(** Lines 48 and 56: the second assignment is the one in force when the
    functions run. *)
Definition CACHE_DURATION : Q := 300.

(** An entry of [sentiment_cache] *)
Record cache_entry := {
  cached_result : string;
  cached_timestamp : Q }.

(** Lines 1106-1115: the value returned, the trace and the cache the call
    leaves. [now] is the reading of [time.time()], [client text] the Groq
    client on the prompt [text]. The arguments [retries] and [delay] are
    not handed on. *)
Definition analyze_sentiment_with_cache (client : string → nat → Groq.outcome)
  (sentiment_cache : gmap string cache_entry) (now : Q) (ticker text : string)
  (retries : nat) (delay : Q)
  : traced (string * bool) * gmap string cache_entry :=
  let call :=
    let r := Groq.groq_generate_content (client text) 3 1 in
    match r.1 with
    | Ok result =>
        ((Ok (result, false), r.2),
         <[ticker := {| cached_result := result; cached_timestamp := now |}]>
           sentiment_cache)
    | Raise e => ((Raise e, r.2), sentiment_cache)
    end in
  match sentiment_cache !! ticker with
  | Some entry =>
      if Qltb (now - cached_timestamp entry) CACHE_DURATION
      then ((Ok (cached_result entry, true), []), sentiment_cache)
      else call
  | None => call
  end.

(** *** [get_news] *)

(** An article of the answer of the News API. A field read with
    [a["key"]] is [None] when reading it raises and [Some None] when it
    holds [null]; a field read with [a.get("key")] is [None] when it is
    missing or [null]. *)
Record article := {
  a_title : option (option string);
  a_source_name : option (option string);
  a_publishedAt : option (option string);
  a_description : option string;
  a_content : option string;
  a_url : option (option string) }.

Record news_item := {
  title : option string;
  source : option string;
  timestamp : option string;
  content : string;
  url : option string;
  sentiment : Q;
  credibility : Z }.

(** The answer to the request: an exception, or a status with the list
    under ["articles"], [None] when reading the body raises. *)
Inductive news_response :=
| NewsRaise
| NewsStatus (status_code : Z) (articles : option (list article)).

(** [x or y] on strings that may be [None] *)
Definition str_or (x y : option string) : option string :=
  match x with
  | Some EmptyString | None => y
  | Some s => Some s
  end.

(** Lines 185-193 for one article; [None] when a key is missing. *)
Definition news_item_of (a : article) : option news_item :=
  t ← a_title a;
  s ← a_source_name a;
  p ← a_publishedAt a;
  u ← a_url a;
  Some {| title := t; source := s; timestamp := p;
          content := default EmptyString
                       (str_or (str_or (a_description a) (a_content a))
                               (Some EmptyString));
          url := u; sentiment := 0; credibility := 3 |}.

(** [l[:limit]] *)
Definition slice_to {A} (limit : Z) (l : list A) : list A :=
  if (0 <=? limit)%Z then take (Z.to_nat limit) l
  else take (length l - Z.to_nat (- limit)) l.

(** Lines 177-199 *)
Definition get_news (response : news_response) (limit : Z) : list news_item :=
  match response with
  | NewsRaise => []
  | NewsStatus status_code articles =>
      if (status_code =? 200)%Z then
        match articles with
        | Some articles => default [] (mapM news_item_of (slice_to limit articles))
        | None => []
        end
      else []
  end.

(** *** The [/quarterly] route *)

Record sector_row := {
  name : string;
  performance : Q }.

(** [(hist["Close"].iloc[-1] / hist["Close"].iloc[0] - 1) * 100], [None]
    when [hist.empty]. A first close of 0, for which numpy gives an
    infinity or NaN, is outside the model. *)
Definition change_pct (closes : list Q) : option Q :=
  match closes with
  | [] => None
  | first :: _ => Some ((default first (last closes) / first - 1) * 100)
  end.

(** Lines 1034-1045 for one sector *)
Definition sector_rows_of (history : string → result (list Q)) (sector : string)
  : list sector_row :=
  match history sector with
  | Ok closes =>
      match change_pct closes with
      | Some p => [ {| name := sector; performance := p |} ]
      | None => []
      end
  | Raise _ => []
  end.

(** [sorted(rows, key=lambda x: x["performance"], reverse=True)]: the
    stable sort by decreasing performance *)
Fixpoint insert_desc (x : sector_row) (l : list sector_row) : list sector_row :=
  match l with
  | [] => [x]
  | y :: l' =>
      if Qle_bool (performance y) (performance x) then x :: y :: l'
      else y :: insert_desc x l'
  end.

Definition sorted_desc (l : list sector_row) : list sector_row := foldr insert_desc [] l.

Definition sectors : list string := ["XLK"; "XLF"; "XLV"; "XLE"; "XLI"]%string.

Record quarterly_body := {
  market_trend : string;
  spy_performance : Q;
  market_outlook : string;
  top_sectors : list sector_row }.

Inductive quarterly_response :=
| Quarterly200 (body : quarterly_body)
| Quarterly500 (error : string).

(** Lines 1015-1066, the [timestamp] of the answer left out *)
Definition quarterly (history : string → result (list Q)) : quarterly_response :=
  match history "SPY"%string with
  | Raise e => Quarterly500 (exn_str e)
  | Ok spy_hist =>
      let spy_return := default 0 (change_pct spy_hist) in
      let sector_performance := sectors ≫= sector_rows_of history in
      let rows :=
        match sector_performance with
        | [] => (λ s, {| name := s; performance := 0 |}) <$> sectors
        | _ => sector_performance
        end in
      Quarterly200
        {| market_trend := if Qltb 0 spy_return then "Bullish" else "Bearish";
           spy_performance := spy_return;
           market_outlook :=
             if Qltb 0 spy_return then "Market showing positive momentum"
             else "Market showing weakness";
           top_sectors := sorted_desc rows |}
  end.

End App.

(** ** Notions used in the statements *)

Module Notions.
Import Py.
Local Open Scope Q_scope.


(** The last row of a table that has the given key *)
Definition last_row {A} (key : A → string) (k : string) (rows : list A) : option A :=
  last (filter (λ x, key x = k) rows).

(** The sector the holdings give a ticker: that of its last row *)
Definition sector_of_ticker (svc : Metrics.services) (holdings : list Metrics.holding)
  (t : string) : option string :=
  Metrics.resolve_sector svc <$> last_row Metrics.ticker t holdings.

(** The distinct sectors of the holdings *)
Definition distinct_sectors (svc : Metrics.services) (holdings : list Metrics.holding)
  : gset string :=
  list_to_set (omap (sector_of_ticker svc holdings) (Metrics.tickers_of holdings)).



(** The sum of [g t] over the rows [t] of [l] whose key [k t] is [s] *)
Definition keyed_sum (k : string → string) (g : string → Q) (s : string) (l : list string) : Q :=
  foldr (λ t acc, if decide (k t = s) then g t + acc else acc) 0 l.


(** [calculate_portfolio_metrics] with its divisions carried out: what
    lines 133-198 come to once the total is known to be non-zero. *)
Definition metrics_formula (svc : Metrics.services) (holdings : list Metrics.holding)
  (ov : option pyscalar) : result Metrics.metrics :=
  let tickers := Metrics.tickers_of holdings in
  let total := Metrics.denominator svc holdings ov in
  let exposure := (λ v, round2 (100 * v / total)) <$> Metrics.sector_totals svc holdings in
  let score := Metrics.diversification_of (Metrics.sectors_of svc holdings) tickers in
  let data := Metrics.history_frame svc tickers in
  if decide (data = ∅) then
    Ok {| Metrics.total_value := round2 total; Metrics.expected_return := 0;
          Metrics.risk := Metrics.NotAvailable; Metrics.sector_exposure := exposure;
          Metrics.diversification_score := score; Metrics.volatility := 0 |}
  else
    match Metrics.portfolio_stats svc tickers
            ((λ t, Metrics.value_of (Metrics.prices_of svc holdings)
                     (Metrics.amounts_of holdings) t / total) <$> tickers)
            data with
    | None => Raise (ExternalError "numpy")
    | Some (r, v) =>
        Ok {| Metrics.total_value := round2 total;
              Metrics.expected_return := round2 (r * 100);
              Metrics.risk := Metrics.classify (v * 100);
              Metrics.sector_exposure := exposure;
              Metrics.diversification_score := score;
              Metrics.volatility := round2 (v * 100) |}
    end.



(** The series that the requests for ticker [t] leave in the result: that
    of the last request for [t] that brought one. Only the answers to the
    requests for [t] are looked at. *)
Fixpoint series_for (provider : nat → string → History.av_response) (from_date to_date : Z)
  (t : string) (i : nat) (tickers : list string) : option (gmap Z Q) :=
  match tickers with
  | [] => None
  | t' :: rest =>
      match series_for provider from_date to_date t (S i) rest with
      | Some s => Some s
      | None =>
          if decide (t' = t) then History.av_series from_date to_date (provider i t')
          else None
      end
  end.




(** The holdings that lines 714-721 keep for a request *)
Definition valid_holdings_of (svc : Route.services) (req : Route.request) : list Route.holding :=
  (Route.split_holdings
     (History.get_alpha_vantage_history_batch (Route.alpha_vantage svc)
        (Route.ticker <$> Route.holdings req) (Route.today req - 365) (Route.today req))
     (Route.holdings req)).1.

(** The outcome of line 704 for a request *)
Definition metrics_of (svc : Route.services) (req : Route.request) : result Metrics.metrics :=
  Metrics.calculate_portfolio_metrics (Route.market svc)
    (Route.metrics_row <$> Route.holdings req) (SNum <$> Route.total_worth req).



Definition polygon_requests (log : list Trace.event) : nat :=
  length (omap (λ e, match e with Trace.PolygonGet t _ _ => Some t | _ => None end) log).

(** The series a Polygon answer carries, if it carries one *)
Definition polygon_series (o : History.http_outcome) : option (list (Z * Q)) :=
  match o with
  | History.HttpStatus 200 (x :: results) => Some (x :: results)
  | _ => None
  end.



End Notions.

(** ** Inputs of the examples *)

Module Examples.
Import Py.
Local Open Scope Q_scope.

(** A market that answers nothing: every call raises. *)
Definition offline : Metrics.services :=
  {| Metrics.float_of_str := λ _, None;
     Metrics.yf_info := λ _, None;
     Metrics.yf_history := λ _, None;
     Metrics.portfolio_stats := λ _ _ _, None |}.


(** A holding without a price in a market that answers nothing *)
Definition unpriced : list Metrics.holding :=
  [ {| Metrics.ticker := "ZZZZ"; Metrics.amount := 3;
       Metrics.price := CNaN; Metrics.sector := None |} ].

(** [optimize_portfolio]: a parser for the two amounts of the example, a
    year of prices for every ticker, and a solver that puts 60 percent in
    AAPL and 40 percent in MSFT. *)
Definition sixty_forty : Optimize.services :=
  {| Optimize.float_of_str :=
       λ s, if decide (s = "100"%string) then Some 100
            else if decide (s = "50"%string) then Some 50 else None;
     Optimize.history := λ _, Ok [1; 2];
     Optimize.max_sharpe_portfolio :=
       λ _, Ok ([("AAPL"%string, 0.6); ("MSFT"%string, 0.4)], (0.1, 0.2, 0.5)) |}.




(** Alpha Vantage knows every ticker but ZZZZ. *)
Definition no_zzzz (i : nat) (t : string) : History.av_response :=
  if decide (t = "ZZZZ"%string) then History.AvStatus 200 []
  else History.AvStatus 200 [(Some 100%Z, Some 10); (Some 130%Z, Some 11)].


(** A solver for which no target below 0.2 is feasible: [efficient_risk]
    raises below it, the minimum-variance solve answers 0.2, and the
    weights are 45 and 55 percent. *)
Definition floor_at_20 : Route.solver_ops :=
  {| Route.estimates := unit;
     Route.frontier := unit;
     Route.estimate := λ _, Ok tt;
     Route.new_frontier := λ _, Ok tt;
     Route.efficient_risk :=
       λ ef v, if Qltb v 0.2 then (Raise (ExternalError "infeasible"), ef) else (Ok tt, ef);
     Route.min_volatility := λ ef, (Ok (Route.MinVolNumber 0.2), ef);
     Route.max_sharpe := λ ef, (Ok tt, ef);
     Route.clean_weights := λ _, Ok [("AAPL"%string, 0.45); ("MSFT"%string, 0.55)];
     Route.portfolio_performance := λ _, Ok (0.1, 0.2, 0.5) |}.

(** A solver whose volatility target is never feasible and whose
    minimum-variance solve raises as well *)
Definition stubborn : Route.solver_ops :=
  {| Route.estimates := unit;
     Route.frontier := unit;
     Route.estimate := λ _, Ok tt;
     Route.new_frontier := λ _, Ok tt;
     Route.efficient_risk := λ ef _, (Raise (ExternalError "infeasible"), ef);
     Route.min_volatility := λ ef, (Raise (ExternalError "solver failed"), ef);
     Route.max_sharpe := λ ef, (Ok tt, ef);
     Route.clean_weights := λ _, Ok [("AAPL"%string, 0.45); ("MSFT"%string, 0.55)];
     Route.portfolio_performance := λ _, Ok (0.1, 0.2, 0.5) |}.

(** A solver that meets every target and puts everything in AAPL *)
Definition obliging : Route.solver_ops :=
  {| Route.estimates := unit;
     Route.frontier := unit;
     Route.estimate := λ _, Ok tt;
     Route.new_frontier := λ _, Ok tt;
     Route.efficient_risk := λ ef _, (Ok tt, ef);
     Route.min_volatility := λ ef, (Ok (Route.MinVolNumber 0.1), ef);
     Route.max_sharpe := λ ef, (Ok tt, ef);
     Route.clean_weights := λ _, Ok [("AAPL"%string, 1)];
     Route.portfolio_performance := λ _, Ok (0.1, 0.2, 0.5) |}.

Definition services_with (ops : Route.solver_ops) : Route.services :=
  {| Route.market := offline;
     Route.alpha_vantage := no_zzzz;
     Route.optimizer := ops;
     Route.groq := λ _, Groq.Completion "Hold." |}.

(** Ten AAPL at 150 and five MSFT at 300, risk tolerance Moderate *)
Definition two_ticker_request : Route.request :=
  {| Route.risk_tolerance := "Moderate";
     Route.holdings :=
       [ {| Route.ticker := "AAPL"; Route.amount := 10; Route.price := 150 |};
         {| Route.ticker := "MSFT"; Route.amount := 5; Route.price := 300 |} ];
     Route.total_worth := None;
     Route.today := 400 |}.


(** One holding that Alpha Vantage does not know *)
Definition unknown_ticker_request : Route.request :=
  {| Route.risk_tolerance := "Moderate";
     Route.holdings :=
       [ {| Route.ticker := "ZZZZ"; Route.amount := 1; Route.price := 1 |} ];
     Route.total_worth := None;
     Route.today := 400 |}.

End Examples.


(** ** Further notions *)

Module Notions2.
Import Py.
Local Open Scope Q_scope.

(** The sum of a list of numbers *)
Definition sumQ (l : list Q) : Q := foldr Qplus 0 l.

(** The sum of the values of a dictionary *)
Definition map_sum (m : gmap string Q) : Q := sumQ (map_to_list m).*2.

(** The tickers that lines 714-721 set aside for a request *)
Definition failed_tickers_of (svc : Route.services) (req : Route.request) : list string :=
  (Route.split_holdings
     (History.get_alpha_vantage_history_batch (Route.alpha_vantage svc)
        (Route.ticker <$> Route.holdings req) (Route.today req - 365) (Route.today req))
     (Route.holdings req)).2.



(** Rows in the order of decreasing performance *)
Fixpoint decreasing (l : list App.sector_row) : Prop :=
  match l with
  | [] => True
  | x :: l' =>
      Forall (λ y, App.performance y <= App.performance x) l' ∧ decreasing l'
  end.

(** The sector has a history that is not empty. *)
Definition has_history (history : string → result (list Q)) (sector : string) : Prop :=
  ∃ c cs, history sector = Ok (c :: cs).

End Notions2.

(** ** Further inputs of the examples *)

Module Examples2.
Import Py.
Local Open Scope Q_scope.

(** A Groq client that answers every prompt at once *)
Definition bullish_client (prompt : string) (attempt : nat) : Groq.outcome :=
  Groq.Completion "Bullish".

(** A Groq client that is down *)
Definition down_client (prompt : string) (attempt : nat) : Groq.outcome :=
  Groq.Failure "down".

(** The cache after a first analysis of AAPL at time 0 *)
Definition after_monday : gmap string App.cache_entry :=
  (App.analyze_sentiment_with_cache bullish_client ∅ 0 "AAPL" "news of Monday" 3 1).2.

End Examples2.
(* ===================================================================== *)
(** * Part II: the properties *)
(* ===================================================================== *)

(** ** Rounding and division *)

Module NumFacts.
Import Py Notions.
Local Open Scope Q_scope.



Lemma round_half_even_cases (x : Q) :
  let f := Qfloor x in
  (round_half_even x = f ∧ x - inject_Z f <= 1 # 2)
  ∨ (round_half_even x = (f + 1)%Z ∧ 1 # 2 <= x - inject_Z f).
Proof.
  cbv zeta. unfold round_half_even.
  destruct (Qcompare (x - inject_Z (Qfloor x)) (1 # 2)) eqn:Hc.
  - apply Qeq_alt in Hc.
    destruct (Z.even (Qfloor x)); [left | right]; split; try reflexivity;
      rewrite Hc; apply Qle_refl.
  - apply Qlt_alt in Hc. left. split; [reflexivity | apply Qlt_le_weak, Hc].
  - apply Qgt_alt in Hc. right. split; [reflexivity | apply Qlt_le_weak, Hc].
Qed.

Lemma round_half_even_error (x : Q) :
  Qabs (inject_Z (round_half_even x) - x) <= 1 # 2.
Proof.
  pose proof (Qfloor_le x) as Hlo.
  pose proof (Qlt_floor x) as Hhi.
  rewrite inject_Z_plus in Hhi. change (inject_Z 1) with 1 in Hhi.
  apply Qabs_Qle_condition.
  destruct (round_half_even_cases x) as [[-> H] | [-> H]];
    rewrite ?inject_Z_plus; change (inject_Z 1) with 1;
    generalize dependent (inject_Z (Qfloor x)); intros f ? ? ?; split; lra.
Qed.


Lemma round2_error (x : Q) : Qabs (round2 x - x) <= 1 # 200.
Proof.
  pose proof (round_half_even_error (x * 100)) as H.
  apply Qabs_Qle_condition in H. apply Qabs_Qle_condition.
  unfold round2. generalize dependent (inject_Z (round_half_even (x * 100))).
  intros n H. split; [ | ].
  - assert (n / 100 == n * (1 # 100)) as -> by (field). lra.
  - assert (n / 100 == n * (1 # 100)) as -> by (field). lra.
Qed.





Lemma Qltb_lt (x y : Q) : Qltb x y = true ↔ x < y.
Proof.
  unfold Qltb. rewrite negb_true_iff.
  split.
  - intros H. apply Qnot_le_lt. intros Hle. apply Qle_bool_iff in Hle. congruence.
  - intros H. destruct (Qle_bool y x) eqn:E; [ | reflexivity].
    apply Qle_bool_iff in E. lra.
Qed.

Lemma Qltb_ge (x y : Q) : Qltb x y = false ↔ y <= x.
Proof.
  unfold Qltb. rewrite negb_false_iff. apply Qle_bool_iff.
Qed.

Lemma pydiv_defined (x y : Q) : ¬ y == 0 → pydiv x y = Ok (x / y).
Proof.
  intros Hy. unfold pydiv.
  destruct (Qeq_bool y 0) eqn:E; [ | reflexivity].
  apply Qeq_bool_iff in E. contradiction.
Qed.

End NumFacts.

(** ** Dictionaries filled by a loop *)

Module DictFacts.
Import Py Notions.

Section fold_insert.
Context {A V : Type} (key : A → string) (val : A → V).

(** After [for x in rows: d[key x] = val x], a key holds the value of the
    last row that has it, or what it held before. *)
Lemma lookup_foldl_insert (rows : list A) (d : gmap string V) (k : string) :
  foldl (λ d x, <[key x := val x]> d) d rows !! k
  = match last_row key k rows with
    | Some x => Some (val x)
    | None => d !! k
    end.
Proof.
  unfold last_row. revert d. induction rows as [ | x rows IH]; intros d; [reflexivity | ].
  cbn [foldl]. rewrite IH, filter_cons.
  destruct (decide (key x = k)) as [Heq | Hne].
  - destruct (filter (λ y, key y = k) rows) as [ | y ys].
    + cbn. subst k. apply lookup_insert_eq.
    + change (last (x :: y :: ys)) with (last (y :: ys)).
      destruct (last (y :: ys)) eqn:El; [reflexivity | ].
      apply last_None in El. discriminate.
  - destruct (last (filter (λ y, key y = k) rows)); [reflexivity | ].
    apply lookup_insert_ne, Hne.
Qed.

End fold_insert.

Section last_row.
Context {A : Type} (key : A → string).


Lemma last_row_is_Some (rows : list A) (x : A) :
  x ∈ rows → is_Some (last_row key (key x) rows).
Proof.
  unfold last_row. intros Hin.
  assert (Hf : x ∈ filter (λ y, key y = key x) rows).
  { apply list_elem_of_filter. split; [reflexivity | exact Hin]. }
  destruct (last (filter (λ y, key y = key x) rows)) eqn:E; [eauto | ].
  apply last_None in E. rewrite E in Hf. inversion Hf.
Qed.


End last_row.

(** A comprehension whose body never raises *)
Lemma dict_comprehension_total {A B} (f : A → result B) (g : A → B) (d : gmap string A) :
  (∀ v, f v = Ok (g v)) → dict_comprehension f d = Ok (g <$> d).
Proof.
  intros Hf. unfold dict_comprehension.
  assert (HM : ∀ l : list (string * A),
             mapM (λ kv : string * A, v ← f kv.2; mret (kv.1, v)) l
             = Ok (prod_map id g <$> l)).
  { induction l as [ | [k v] l IH]; [reflexivity | ].
    cbn [mapM]. cbn. rewrite Hf. cbn. rewrite IH. reflexivity. }
  rewrite HM. cbn. f_equal.
  rewrite list_to_map_fmap, list_to_map_to_list. reflexivity.
Qed.

End DictFacts.

(** ** [calculate_portfolio_metrics] *)

Module MetricsFacts.
Import Py Notions NumFacts DictFacts Metrics.
Local Open Scope Q_scope.

Section metrics.
Context (svc : services).

Lemma prices_sectors_folds (holdings : list holding) (p : gmap string Q) (s : gmap string string) :
  foldl (λ ps h, (<[ticker h := resolve_price svc h]> ps.1,
                  <[ticker h := resolve_sector svc h]> ps.2)) (p, s) holdings
  = (foldl (λ d h, <[ticker h := resolve_price svc h]> d) p holdings,
     foldl (λ d h, <[ticker h := resolve_sector svc h]> d) s holdings).
Proof.
  revert p s. induction holdings as [ | h holdings IH]; intros p s; [reflexivity | ].
  cbn [foldl]. cbn [fst snd]. apply IH.
Qed.


Lemma sectors_lookup (holdings : list holding) (t : string) :
  sectors_of svc holdings !! t = sector_of_ticker svc holdings t.
Proof.
  unfold sectors_of, prices_sectors, sector_of_ticker. rewrite prices_sectors_folds. cbn [snd].
  rewrite lookup_foldl_insert. destruct (last_row ticker t holdings); reflexivity.
Qed.



(** The guard of line 141 leaves a total that is not zero. *)
Lemma effective_total_nonzero (sum : Q) (ov : option pyscalar) :
  ¬ effective_total svc sum ov == 0.
Proof.
  unfold effective_total.
  destruct (Qeq_bool (overridden_total svc sum ov) 0) eqn:E.
  - intros H. discriminate H.
  - intros H. apply Qeq_bool_iff in H. congruence.
Qed.

Lemma sector_exposure_defined (totals : gmap string Q) (total : Q) :
  ¬ total == 0 →
  sector_exposure_of totals total = Ok ((λ v, round2 (100 * v / total)) <$> totals).
Proof.
  intros H. unfold sector_exposure_of. apply dict_comprehension_total.
  intros v. rewrite (pydiv_defined _ _ H). reflexivity.
Qed.

Lemma weights_defined (prices amounts : gmap string Q) (tickers : list string) (total : Q) :
  ¬ total == 0 →
  weights_of prices amounts tickers total
  = Ok ((λ t, value_of prices amounts t / total) <$> tickers).
Proof.
  intros H. unfold weights_of.
  induction tickers as [ | t tickers IH]; [reflexivity | ].
  cbn [mapM]. rewrite (pydiv_defined _ _ H). cbn. rewrite IH. reflexivity.
Qed.

Lemma calculate_portfolio_metrics_formula (holdings : list holding) (ov : option pyscalar) :
  holdings ≠ [] →
  calculate_portfolio_metrics svc holdings ov = metrics_formula svc holdings ov.
Proof.
  intros Hne. unfold calculate_portfolio_metrics, metrics_formula.
  destruct holdings as [ | h hs]; [contradiction | ].
  set (holdings := h :: hs).
  pose proof (effective_total_nonzero (holdings_sum svc holdings) ov) as Hnz.
  fold (denominator svc holdings ov) in Hnz.
  rewrite (sector_exposure_defined _ _ Hnz). cbn [mbind result_bind].
  destruct (decide (history_frame svc (tickers_of holdings) = ∅)); [reflexivity | ].
  unfold weights. rewrite (weights_defined _ _ _ _ Hnz). cbn [mbind result_bind].
  reflexivity.
Qed.

Lemma foldl_sum {A} (g : A → Q) (l : list A) (a : Q) :
  foldl (λ acc t, acc + g t) a l == a + foldr (λ t acc, g t + acc) 0 l.
Proof.
  revert a. induction l as [ | t l IH]; intros a; cbn [foldl foldr].
  - lra.
  - rewrite IH. lra.
Qed.




End metrics.
Section accumulate.
Context (k : string → string) (g : string → Q).

(** After [for t in l: d[k t] = d.get(k t, 0) + g t], a key holds what it
    held before plus the terms of the rows that have it. *)
Lemma lookup_foldl_accumulate (l : list string) (d : gmap string Q) (s : string) :
  match foldl (λ d t, <[k t := default 0 (d !! k t) + g t]> d) d l !! s with
  | Some v => v == default 0 (d !! s) + keyed_sum k g s l
              ∧ (is_Some (d !! s) ∨ ∃ t, t ∈ l ∧ k t = s)
  | None => d !! s = None ∧ ∀ t, t ∈ l → k t ≠ s
  end.
Proof.
  revert d. induction l as [ | t l IH]; intros d.
  - cbn [foldl keyed_sum foldr]. destruct (d !! s) as [v | ] eqn:E.
    + split; [cbn; unfold id; lra | left; eauto].
    + split; [reflexivity | ]. intros t Ht. inversion Ht.
  - cbn [foldl]. specialize (IH (<[k t := default 0 (d !! k t) + g t]> d)).
    unfold keyed_sum. cbn [foldr]. fold (keyed_sum k g s l).
    destruct (decide (k t = s)) as [Heq | Hne].
    + rewrite <- Heq in *. rewrite lookup_insert_eq in IH.
      destruct (foldl _ _ l !! k t) as [v | ].
      * destruct IH as [Hv _]. split.
        -- rewrite Hv. cbn [default from_option]. unfold id. lra.
        -- right. exists t. split; [apply list_elem_of_here | reflexivity].
      * destruct IH as [Hd _]. discriminate Hd.
    + rewrite lookup_insert_ne in IH by exact Hne.
      destruct (foldl _ _ l !! s) as [v | ].
      * destruct IH as [Hv Hsrc]. split; [exact Hv | ].
        destruct Hsrc as [Hd | (t' & Ht' & Hk)]; [left; exact Hd | ].
        right. exists t'. split; [apply list_elem_of_further, Ht' | exact Hk].
      * destruct IH as [Hd Hall]. split; [exact Hd | ].
        intros t' Ht'. apply elem_of_cons in Ht' as [-> | Ht']; [exact Hne | apply Hall, Ht'].
Qed.

End accumulate.

Section sector_totals.
Context (svc : services).



End sector_totals.

(** *** The claims about [calculate_portfolio_metrics] *)

Section claims.
Context (svc : services).


(** C10. [calculate_portfolio_metrics] never divides by zero. The total,
    computed or overridden, is replaced by 1 when it equals 0, so the
    divisor of lines 149 and 176 is never 0: both comprehensions are
    defined, the function never raises [ZeroDivisionError], and when the
    total was 0 the percentages and the weights are taken relative to 1. *)
Theorem C10_no_division_by_zero (holdings : list holding) (ov : option pyscalar) :
  let raw := overridden_total svc (holdings_sum svc holdings) ov in
  let total := denominator svc holdings ov in
  total = (if Qeq_bool raw 0 then 1 else raw)
  ∧ ¬ total == 0
  ∧ sector_exposure_of (sector_totals svc holdings) total
    = Ok ((λ v, round2 (100 * v / total)) <$> sector_totals svc holdings)
  ∧ weights svc holdings ov
    = Ok ((λ t, value_of (prices_of svc holdings) (amounts_of holdings) t / total)
          <$> tickers_of holdings)
  ∧ calculate_portfolio_metrics svc holdings ov ≠ Raise ZeroDivisionError.
Proof.
  cbv zeta.
  pose proof (effective_total_nonzero svc (holdings_sum svc holdings) ov) as Hnz.
  fold (denominator svc holdings ov) in Hnz.
  split; [reflexivity | ]. split; [exact Hnz | ].
  split; [apply sector_exposure_defined, Hnz | ].
  split; [apply weights_defined, Hnz | ].
  destruct holdings as [ | h hs] eqn:E; [discriminate | ].
  rewrite calculate_portfolio_metrics_formula by discriminate.
  unfold metrics_formula. cbv zeta.
  destruct (decide (history_frame svc _ = ∅)); [discriminate | ].
  destruct (portfolio_stats svc _ _ _) as [[r v] | ]; discriminate.
Qed.


End claims.



(** C8 and C10 on a holding without a price: it counts as a ticker, its
    value is 0, and the total of 0 is reported as 1. *)
Example unpriced_holding :
  match calculate_portfolio_metrics Examples.offline Examples.unpriced None with
  | Ok m => diversification_score m = 20%Z ∧ Qred (total_value m) = 1
  | Raise _ => False
  end.
Proof. vm_compute. split; reflexivity. Qed.

End MetricsFacts.

(** ** Ordered dictionaries *)

Module ODictFacts.
Section odict.
Context {V : Type}.
Implicit Types (d : list (string * V)) (k : string) (v : V).

Lemma set_keys d k v :
  (ODict.set k v d).*1 = if decide (k ∈ d.*1) then d.*1 else d.*1 ++ [k].
Proof.
  induction d as [ | [k' v'] d IH]; [reflexivity | ].
  cbn [ODict.set]. destruct (decide (k = k')) as [-> | Hne].
  - cbn. rewrite decide_True by apply list_elem_of_here. reflexivity.
  - cbn [fmap list_fmap fst]. fold (d.*1). rewrite IH.
    destruct (decide (k ∈ d.*1)) as [Hin | Hnin].
    + rewrite decide_True by (apply list_elem_of_further, Hin). reflexivity.
    + rewrite decide_False; [reflexivity | ].
      intros Hin. apply elem_of_cons in Hin as [? | ?]; contradiction.
Qed.

Lemma set_NoDup d k v : NoDup d.*1 → NoDup (ODict.set k v d).*1.
Proof.
  intros Hnd. rewrite set_keys. destruct (decide (k ∈ d.*1)); [exact Hnd | ].
  apply NoDup_app. split; [exact Hnd | ]. split.
  - intros x Hx Hk. apply list_elem_of_singleton in Hk. subst x. contradiction.
  - apply NoDup_singleton.
Qed.

(** A dictionary has one entry per key. *)
Lemma of_items_NoDup (items : list (string * V)) : NoDup (ODict.of_items items).*1.
Proof.
  unfold ODict.of_items.
  assert (H : ∀ d, NoDup d.*1 → NoDup (foldl (λ d kv, ODict.set kv.1 kv.2 d) d items).*1).
  { induction items as [ | [k v] items IH]; intros d Hd; [exact Hd | ].
    cbn [foldl]. apply IH, set_NoDup, Hd. }
  apply H. constructor.
Qed.


End odict.
End ODictFacts.

(** ** [optimize_portfolio] *)

Module OptimizeFacts.
Import Py Notions NumFacts ODictFacts Optimize.
Local Open Scope Q_scope.




(** C9 on [AAPL:100,MSFT:50] with a solver that answers 60 and 40 percent:
    the amounts come back as they were given. *)
Example sixty_forty_amounts :
  (λ a, (ticker a, Qred (optimal_weight a), Qred (current_amount a), Qred (optimal_amount a)))
  <$> allocations (optimize_portfolio Examples.sixty_forty "AAPL:100, MSFT:50")
  = [("AAPL"%string, 60, 100, 100); ("MSFT"%string, 40, 50, 50)].
Proof. vm_compute. reflexivity. Qed.

End OptimizeFacts.

(** ** Retries: [groq_generate_content] and the reduced-range ladder *)

Module RetryFacts.
Import Py Trace Notions NumFacts.
Local Open Scope Q_scope.

Lemma emit_bind {A} (e : event) (m : traced A) :
  (emit e ≫= λ _, m) = (m.1, e :: m.2).
Proof. reflexivity. Qed.



Section groq.
Import Groq.
Context (client : nat → outcome) (retries : nat).


End groq.

Section polygon.
Import History.
Context (get : nat → http_outcome) (ticker : string) (from_date to_date : Z).


End polygon.



End RetryFacts.

(** ** The historical series and the tickers that failed *)

Module HistoryFacts.
Import Py Notions History.

Section batch.
Context (provider : nat → string → av_response) (from_date to_date : Z).

(** A series that is stored is not empty. *)
Lemma av_series_nonempty (r : av_response) (s : gmap Z Q) :
  av_series from_date to_date r = Some s → s ≠ ∅.
Proof.
  unfold av_series. destruct r as [ | status_code rows]; [discriminate | ].
  destruct (status_code =? 200)%Z; [ | discriminate].
  destruct rows as [ | row rows]; [discriminate | ].
  destruct (parse_rows (row :: rows) ∅) as [series | ]; [ | discriminate].
  cbn [mbind option_bind].
  destruct (decide (filter _ series = ∅)); [discriminate | ].
  intros H. injection H as <-. assumption.
Qed.

Lemma av_loop_lookup (i : nat) (tickers : list string) (all_data : gmap string (gmap Z Q))
  (t : string) :
  av_loop provider from_date to_date i tickers all_data !! t
  = match series_for provider from_date to_date t i tickers with
    | Some s => Some s
    | None => all_data !! t
    end.
Proof.
  revert i all_data. induction tickers as [ | t' rest IH]; intros i all_data; [reflexivity | ].
  cbn [av_loop series_for]. rewrite IH.
  destruct (series_for provider from_date to_date t (S i) rest); [reflexivity | ].
  destruct (decide (t' = t)) as [-> | Hne].
  - destruct (av_series from_date to_date (provider i t)); [apply lookup_insert_eq | reflexivity].
  - destruct (av_series from_date to_date (provider i t')); [ | reflexivity].
    apply lookup_insert_ne, Hne.
Qed.

Lemma series_for_nonempty (t : string) (i : nat) (tickers : list string) (s : gmap Z Q) :
  series_for provider from_date to_date t i tickers = Some s → s ≠ ∅.
Proof.
  revert i. induction tickers as [ | t' rest IH]; intros i; [discriminate | ].
  cbn [series_for].
  destruct (series_for provider from_date to_date t (S i) rest) eqn:E.
  - intros H. injection H as <-. apply (IH (S i)), E.
  - destruct (decide (t' = t)); [apply av_series_nonempty | discriminate].
Qed.

End batch.

(** The series of a ticker only depends on the answers to its own
    requests. *)
Lemma series_for_ext (p1 p2 : nat → string → av_response) (from_date to_date : Z)
  (t : string) (i : nat) (tickers : list string) :
  (∀ j, tickers !! j = Some t → p1 (i + j)%nat t = p2 (i + j)%nat t) →
  series_for p1 from_date to_date t i tickers = series_for p2 from_date to_date t i tickers.
Proof.
  revert i. induction tickers as [ | t' rest IH]; intros i Hsame; [reflexivity | ].
  cbn [series_for]. rewrite (IH (S i)).
  - destruct (series_for p2 from_date to_date t (S i) rest); [reflexivity | ].
    destruct (decide (t' = t)) as [-> | ]; [ | reflexivity].
    specialize (Hsame 0%nat eq_refl). rewrite Nat.add_0_r in Hsame. rewrite Hsame. reflexivity.
  - intros j Hj. replace (S i + j)%nat with (i + S j)%nat by lia. apply Hsame. exact Hj.
Qed.

(** Lines 714-721 sort the holdings by [has_data]. *)
Lemma split_holdings_filter (data : gmap string (gmap Z Q)) (holdings : list Route.holding) :
  Route.split_holdings data holdings
  = (filter (λ h, has_data data (Route.ticker h) = true) holdings,
     Route.ticker <$> filter (λ h, has_data data (Route.ticker h) ≠ true) holdings).
Proof.
  unfold Route.split_holdings.
  assert (H : ∀ valid failed,
    foldl (λ vf h, if has_data data (Route.ticker h) then (vf.1 ++ [h], vf.2)
                   else (vf.1, vf.2 ++ [Route.ticker h])) (valid, failed) holdings
    = (valid ++ filter (λ h, has_data data (Route.ticker h) = true) holdings,
       failed ++ (Route.ticker <$> filter (λ h, has_data data (Route.ticker h) ≠ true) holdings))).
  { induction holdings as [ | h holdings IH]; intros valid failed.
    - cbn. rewrite !app_nil_r. reflexivity.
    - cbn [foldl]. rewrite !filter_cons.
      destruct (has_data data (Route.ticker h)) eqn:E; cbn [fst snd]; rewrite IH.
      + rewrite decide_True by reflexivity. rewrite decide_False by auto.
        rewrite <- app_assoc. reflexivity.
      + rewrite decide_False by discriminate. rewrite decide_True by discriminate.
        rewrite fmap_cons, <- app_assoc. reflexivity. }
  apply H.
Qed.

(** C5. The aggregation keeps the tickers apart. The column of a ticker is
    the series its own requests brought, whatever the other requests did,
    so changing the answers for other tickers changes nothing for it; a
    column that is present holds a series that is not empty, never a filling;
    and every holding is either kept with its series or, its ticker being
    absent from the result, listed in [failed_tickers]. *)
Theorem C5_failures_are_isolated (provider : nat → string → av_response)
  (holdings : list Route.holding) (from_date to_date : Z) :
  let tickers := Route.ticker <$> holdings in
  let data := get_alpha_vantage_history_batch provider tickers from_date to_date in
  let valid_holdings := (Route.split_holdings data holdings).1 in
  let failed_tickers := (Route.split_holdings data holdings).2 in
  (∀ t, data !! t = series_for provider from_date to_date t 0 tickers)
  ∧ (∀ provider' t,
       (∀ j, tickers !! j = Some t → provider' j t = provider j t) →
       get_alpha_vantage_history_batch provider' tickers from_date to_date !! t = data !! t)
  ∧ (∀ t s, data !! t = Some s → s ≠ ∅)
  ∧ (∀ h, h ∈ holdings →
       (is_Some (data !! Route.ticker h) ∧ h ∈ valid_holdings
        ∧ Route.ticker h ∉ failed_tickers)
       ∨ (data !! Route.ticker h = None ∧ Route.ticker h ∈ failed_tickers
          ∧ h ∉ valid_holdings)).
Proof.
  cbv zeta.
  assert (Hlookup : ∀ p t,
    get_alpha_vantage_history_batch p (Route.ticker <$> holdings) from_date to_date !! t
    = series_for p from_date to_date t 0 (Route.ticker <$> holdings)).
  { intros p t. unfold get_alpha_vantage_history_batch. rewrite av_loop_lookup.
    destruct (series_for p from_date to_date t 0 _); [reflexivity | apply lookup_empty]. }
  assert (Hne : ∀ t s,
    get_alpha_vantage_history_batch provider (Route.ticker <$> holdings) from_date to_date !! t
    = Some s → s ≠ ∅).
  { intros t s. rewrite Hlookup. apply series_for_nonempty. }
  split; [apply Hlookup | ]. split; [ | split; [exact Hne | ] ].
  - intros provider' t Hsame. rewrite !Hlookup. apply series_for_ext. exact Hsame.
  - intros h Hh. rewrite split_holdings_filter. cbn [fst snd].
    set (data := get_alpha_vantage_history_batch provider (Route.ticker <$> holdings)
                   from_date to_date) in *.
    destruct (data !! Route.ticker h) as [s | ] eqn:E.
    + left. assert (Hd : has_data data (Route.ticker h) = true).
      { unfold has_data. rewrite E. apply bool_decide_eq_true. apply (Hne _ _ E). }
      split; [eauto | ]. split.
      * apply list_elem_of_filter. split; assumption.
      * intros Hin. apply list_elem_of_fmap in Hin as (h' & Heq & Hin).
        apply list_elem_of_filter in Hin as [Hno _]. apply Hno. rewrite <- Heq. exact Hd.
    + right. assert (Hd : has_data data (Route.ticker h) = false).
      { unfold has_data. rewrite E. reflexivity. }
      split; [reflexivity | ]. split.
      * apply list_elem_of_fmap. exists h. split; [reflexivity | ].
        apply list_elem_of_filter. split; [rewrite Hd; discriminate | exact Hh].
      * intros Hin. apply list_elem_of_filter in Hin as [Hyes _]. congruence.
Qed.

(** C5 on AAPL and ZZZZ, Alpha Vantage knowing no ZZZZ: AAPL is kept,
    ZZZZ has no column and is listed as failed. *)
Example zzzz_is_reported :
  let holdings := [ {| Route.ticker := "AAPL"; Route.amount := 10; Route.price := 150 |};
                    {| Route.ticker := "ZZZZ"; Route.amount := 1; Route.price := 1 |} ] in
  let data := get_alpha_vantage_history_batch Examples.no_zzzz
                (Route.ticker <$> holdings) 35 400 in
  data !! "ZZZZ"%string = None
  ∧ Route.ticker <$> (Route.split_holdings data holdings).1 = ["AAPL"%string]
  ∧ (Route.split_holdings data holdings).2 = ["ZZZZ"%string].
Proof. vm_compute. repeat split; reflexivity. Qed.

End HistoryFacts.

(** ** Reconciliation *)

Module ReconcileFacts.
Import Py Notions NumFacts DictFacts ODictFacts Route.
Local Open Scope Q_scope.












(** C3 on a current allocation of 40 and 60 percent against an optimized
    one of 40.5 and 70: nothing for the first ticker, whose difference is
    0.5, and an increase of 10 for the second. *)
Example reconcile_scenarios :
  let held := [ {| ticker := "A"; amount := 2; price := 1 |};
                {| ticker := "B"; amount := 3; price := 1 |} ] in
  let current := current_allocation_of Examples.offline held (total_value_of held) in
  (λ a, (kind a, a_ticker a, Qred (magnitude a), details a))
  <$> actions_of current
        (optimized_allocation_of Examples.offline [("A"%string, 0.405); ("B"%string, 0.7)])
  = [(Increase, "B"%string, 10, "Increase B by 10.0% of portfolio"%string)].
Proof. vm_compute. reflexivity. Qed.

End ReconcileFacts.

(** ** Tickers suggested by the analysis *)

Module MergeFacts.
Import Py Notions NumFacts Route.
Local Open Scope Q_scope.







Lemma suggested_entry_ticker (mkt : Metrics.services) (pct total_value : Q) (t : string) :
  o_ticker (suggested_entry mkt pct total_value t) = t.
Proof. unfold suggested_entry. destruct (Metrics.yf_info mkt t); reflexivity. Qed.



Lemma suggested_members (optimized : list optimized_entry) (ai_analysis t : string) :
  t ∈ ai_suggested_of optimized ai_analysis
  ↔ t ∈ Text.finditer ai_analysis ∧ (t ∉ (o_ticker <$> optimized))
    ∧ t ≠ "ETF"%string ∧ t ≠ "AI"%string.
Proof.
  unfold ai_suggested_of. cbv zeta.
  rewrite elem_of_list_to_set, list_elem_of_filter, elem_of_list_to_set.
  rewrite !not_elem_of_cons. split.
  - intros [(Hex & Hetf & Hai & _) Hin]. auto.
  - intros (Hin & Hex & Hetf & Hai). repeat split; auto. apply not_elem_of_nil.
Qed.



End MergeFacts.

(** ** The ladder of the optimizer and the guard before it *)

Module LadderFacts.
Import Py Trace Notions Route.
Local Open Scope Q_scope.

Section ladder.
Context (ops : solver_ops) (mu_S : estimates ops).

(** Lines 761-769 case by case *)
Lemma retry_min_vol_cases (target min_vol_value : Q) :
  let r := retry_min_vol ops mu_S target min_vol_value in
  match new_frontier ops mu_S with
  | Raise e => r = (Raise e, [SolverCall NewFrontier])
  | Ok fresh =>
      let retry := efficient_risk ops fresh min_vol_value in
      match retry.1 with
      | Ok _ =>
          r = (Ok {| ef := retry.2;
                     used_volatility := Some min_vol_value;
                     warning_vol := Some (warning_too_low target min_vol_value) |},
               [SolverCall NewFrontier; SolverCall (EfficientRisk min_vol_value)])
      | Raise _ =>
          let last := max_sharpe ops retry.2 in
          r = (match last.1 with
               | Ok _ => Ok {| ef := last.2; used_volatility := None;
                               warning_vol := Some warning_max_sharpe |}
               | Raise e => Raise e
               end,
               [SolverCall NewFrontier; SolverCall (EfficientRisk min_vol_value);
                SolverCall MaxSharpe])
      end
  end.
Proof.
  cbv zeta. unfold retry_min_vol, solver.
  destruct (new_frontier ops mu_S) as [fresh | e]; [ | reflexivity].
  cbn [mbind traced_bind fst snd]. unfold try_catch.
  destruct (efficient_risk ops fresh min_vol_value) as [[u | e] ef1]; cbn [fst snd].
  - destruct u. reflexivity.
  - destruct (max_sharpe ops ef1) as [[u | e'] ef2]; cbn [fst snd]; reflexivity.
Qed.

(** C1, as the code has it. When the requested target is infeasible, the
    optimizer runs a minimum-variance solve, reads off its answer the value
    to retry with, and targets that value on a fresh frontier; if this
    succeeds, the warning says that the requested target was too low and
    names the value used. If the retry fails, the optimizer falls back to the
    maximum Sharpe ratio, with a warning that the target could not be
    achieved. The ladder ends in a result exactly when the minimum-variance
    solve, the reading of its value, the fresh frontier and, where it is
    reached, the maximum-Sharpe solve do not raise; an exception of one of
    these leaves the ladder as it is. *)
Theorem C1_volatility_ladder (ef0 : frontier ops) (target : Q) (e0 : exn) :
  (efficient_risk ops ef0 target).1 = Raise e0 →
  let r := volatility_ladder ops mu_S ef0 (Some target) in
  match (min_volatility ops (efficient_risk ops ef0 target).2).1 ≫= min_vol_value_of with
  | Raise e => r.1 = Raise e
  | Ok min_vol_value =>
      match new_frontier ops mu_S with
      | Raise e => r.1 = Raise e
      | Ok fresh =>
          let retry := efficient_risk ops fresh min_vol_value in
          match retry.1 with
          | Ok _ =>
              r = (Ok {| ef := retry.2;
                         used_volatility := Some min_vol_value;
                         warning_vol := Some (warning_too_low target min_vol_value) |},
                   SolverCall <$> [EfficientRisk target; MinVolatility; NewFrontier;
                                   EfficientRisk min_vol_value])
          | Raise _ =>
              let last := max_sharpe ops retry.2 in
              match last.1 with
              | Ok _ =>
                  r = (Ok {| ef := last.2;
                             used_volatility := None;
                             warning_vol := Some warning_max_sharpe |},
                       SolverCall <$> [EfficientRisk target; MinVolatility; NewFrontier;
                                       EfficientRisk min_vol_value; MaxSharpe])
              | Raise e => r.1 = Raise e
              end
          end
      end
  end.
Proof.
  intros Hfirst. cbv zeta. unfold volatility_ladder, try_catch, solver.
  cbn [mbind traced_bind fst snd]. rewrite Hfirst.
  destruct (min_volatility ops (efficient_risk ops ef0 target).2) as [[mv | e] ef1];
    cbn [fst snd mbind traced_bind result_bind lift]; [ | reflexivity].
  destruct (min_vol_value_of mv) as [m | e]; cbn [fst snd]; [ | reflexivity].
  pose proof (retry_min_vol_cases target m) as Hretry. cbv zeta in Hretry.
  destruct (new_frontier ops mu_S) as [fresh | e]; [ | rewrite Hretry; reflexivity].
  destruct (efficient_risk ops fresh m).1 as [u | e]; [rewrite Hretry; reflexivity | ].
  rewrite Hretry. cbn [fst snd].
  destruct (max_sharpe ops (efficient_risk ops fresh m).2).1; reflexivity.
Qed.

End ladder.

(** C1 on a solver whose least volatility is 0.2, for the target 0.15 of a
    moderate risk tolerance: the retry at 0.2 succeeds and the warning says
    so. *)
Lemma C1_volatility_ladder_witness :
  (efficient_risk Examples.floor_at_20 tt 0.15).1 = Raise (ExternalError "infeasible")
  ∧ volatility_ladder Examples.floor_at_20 tt tt (Some 0.15)
    = (Ok (Build_ladder_result Examples.floor_at_20 tt (Some 0.2)
             (Some (warning_too_low 0.15 0.2))),
       SolverCall <$> [EfficientRisk 0.15; MinVolatility; NewFrontier; EfficientRisk 0.2]).
Proof.
  split; [reflexivity | ].
  exact (C1_volatility_ladder Examples.floor_at_20 tt tt 0.15 _ eq_refl).
Defined.

Example warning_too_low_text :
  warning_too_low 0.15 0.2
  = "Requested target volatility 0.15 was too low. Used minimum achievable volatility 0.200 instead."%string.
Proof. vm_compute. reflexivity. Qed.

(** The value the retry targets is read off the answer of the
    minimum-variance solve: the entry [fun] of a dictionary, else its first
    value. *)
Example min_vol_value_of_weights :
  min_vol_value_of (MinVolDict [("AAPL"%string, 0.3); ("MSFT"%string, 0.7)]) = Ok 0.3.
Proof. reflexivity. Qed.

(** An exception of the route's body is answered with status 500. *)
Lemma portfolio_raise (svc : services) (req : request) (e : exn) :
  (portfolio_body svc req).1 = Raise e → (portfolio svc req).1 = Json500 (exn_str e).
Proof. intros H. unfold portfolio. cbn [fst]. rewrite H. reflexivity. Qed.

(** C1 as stated fails. Two tickers have data; the target of 0.15 is
    infeasible and the minimum-variance solve raises. Nothing catches this
    inside the ladder: the route answers with its general error, status 500,
    and no result. *)
Lemma C1_min_volatility_failure_is_an_error :
  length (valid_holdings_of (Examples.services_with Examples.stubborn)
            Examples.two_ticker_request) = 2%nat
  ∧ portfolio (Examples.services_with Examples.stubborn) Examples.two_ticker_request
    = (Json500 "solver failed",
       SolverCall <$> [Estimate ["AAPL"%string; "MSFT"%string]; NewFrontier;
                       EfficientRisk 0.15; MinVolatility]).
Proof. split; vm_compute; reflexivity. Qed.




(** C2 on a request whose only ticker has no data *)
Example unknown_ticker_is_refused :
  portfolio (Examples.services_with Examples.obliging) Examples.unknown_ticker_request
  = (Json400 "No valid tickers found for optimization", []).
Proof. vm_compute. reflexivity. Qed.

End LadderFacts.
(** ** Sums of numbers *)

Module SumFacts.
Import Py Notions2 NumFacts.
Local Open Scope Q_scope.

Lemma sumQ_app (l1 l2 : list Q) : sumQ (l1 ++ l2) == sumQ l1 + sumQ l2.
Proof.
  induction l1 as [ | x l1 IH]; unfold sumQ in *; cbn [app foldr]; [lra | ].
  rewrite IH. lra.
Qed.

Lemma sumQ_perm (l1 l2 : list Q) : l1 ≡ₚ l2 → sumQ l1 == sumQ l2.
Proof.
  induction 1 as [ | x l1 l2 _ IH | x y l | l1 l2 l3 _ IH1 _ IH2];
    unfold sumQ in *; cbn [foldr].
  - reflexivity.
  - rewrite IH. reflexivity.
  - lra.
  - rewrite IH1. exact IH2.
Qed.

Lemma sumQ_round2 (xs : list Q) :
  Qabs (sumQ (round2 <$> xs) - sumQ xs) <= inject_Z (Z.of_nat (length xs)) * (1 # 200).
Proof.
  induction xs as [ | x xs IH].
  - cbn. discriminate.
  - cbn [fmap list_fmap length]. unfold sumQ in *. cbn [foldr].
    rewrite Nat2Z.inj_succ, <- Z.add_1_r, inject_Z_plus. change (inject_Z 1) with 1.
    pose proof (round2_error x) as Hx.
    apply Qabs_Qle_condition in Hx. apply Qabs_Qle_condition in IH.
    apply Qabs_Qle_condition.
    destruct Hx as [Hx1 Hx2]. destruct IH as [IH1 IH2].
    generalize dependent (inject_Z (Z.of_nat (length xs))). intros n IH1 IH2.
    generalize dependent (foldr Qplus 0 (round2 <$> xs)). intros a IH1 IH2.
    generalize dependent (round2 x). intros r Hx1 Hx2.
    split; lra.
Qed.

Lemma sumQ_percent (vs : list Q) (total : Q) :
  ¬ total == 0 →
  sumQ ((λ v, 100 * v / total) <$> vs) == 100 * sumQ vs / total.
Proof.
  intros Hnz. induction vs as [ | v vs IH]; unfold sumQ in *; cbn [fmap list_fmap foldr].
  - field. exact Hnz.
  - rewrite IH. field. exact Hnz.
Qed.

Lemma sumQ_nonneg (l : list Q) : Forall (λ x, 0 <= x) l → 0 <= sumQ l.
Proof.
  induction 1 as [ | x l Hx _ IH]; unfold sumQ in *; cbn [foldr]; lra.
Qed.

End SumFacts.


(** ** Strings *)

Module TextFacts.
Import Text.

Lemma prefix_single (c : ascii) (s : string) :
  String.prefix (String c EmptyString) s = true ↔ ∃ s', s = String c s'.
Proof.
  destruct s as [ | c' s']; cbn.
  - split; [discriminate | intros [? ?]; discriminate].
  - destruct (ascii_dec c c') as [-> | Hne]; cbn.
    + split; [eauto | ]. intros _. destruct s'; reflexivity.
    + split; [discriminate | ]. intros [s'' H]. injection H as <- _. contradiction.
Qed.

(** [c in s] for a single character *)
Lemma contains_char (c : ascii) (s : string) :
  contains (String c EmptyString) s = true ↔ In c (list_ascii_of_string s).
Proof.
  induction s as [ | c' s IH].
  - cbn. split; [discriminate | tauto].
  - cbn [contains list_ascii_of_string In]. rewrite orb_true_iff, IH, prefix_single.
    split.
    + intros [[s' H] | H]; [injection H as <- _; auto | auto].
    + intros [-> | H]; [eauto | auto].
Qed.

Lemma lstrip_chars (s : string) (c : ascii) :
  In c (list_ascii_of_string (lstrip s)) → In c (list_ascii_of_string s).
Proof.
  induction s as [ | c' s IH]; [tauto | ].
  cbn [lstrip]. destruct (is_space c'); [ | tauto].
  intros H. right. apply IH, H.
Qed.

Lemma rstrip_chars (s : string) (c : ascii) :
  In c (list_ascii_of_string (rstrip s)) → In c (list_ascii_of_string s).
Proof.
  induction s as [ | c' s IH]; [tauto | ].
  cbn [rstrip]. destruct (rstrip s) as [ | r rs].
  - destruct (is_space c'); cbn; tauto.
  - cbn [list_ascii_of_string In] in *. tauto.
Qed.

Lemma strip_chars (s : string) (c : ascii) :
  In c (list_ascii_of_string (strip s)) → In c (list_ascii_of_string s).
Proof. intros H. apply lstrip_chars, rstrip_chars, H. Qed.

(** The pieces of a split hold no character that the string does not. *)
Lemma split_chars (sep : ascii) (s piece : string) (c : ascii) :
  piece ∈ split sep s → In c (list_ascii_of_string piece) → In c (list_ascii_of_string s).
Proof.
  revert piece. induction s as [ | c' s IH]; intros piece Hin Hc.
  - cbn in Hin. apply list_elem_of_singleton in Hin. subst. exact Hc.
  - cbn [split] in Hin. cbn [list_ascii_of_string In].
    destruct (Ascii.eqb c' sep).
    + apply elem_of_cons in Hin as [-> | Hin]; [destruct Hc | ].
      right. apply (IH piece); assumption.
    + destruct (split sep s) as [ | w ws] eqn:E.
      * apply list_elem_of_singleton in Hin. subst. cbn in Hc. tauto.
      * apply elem_of_cons in Hin as [-> | Hin].
        -- cbn in Hc. destruct Hc as [-> | Hc]; [auto | ].
           right. apply (IH w); [apply list_elem_of_here | exact Hc].
        -- right. apply (IH piece); [apply list_elem_of_further, Hin | exact Hc].
Qed.

(** What [lstrip] leaves does not start with a space. *)
Lemma lstrip_head (s : string) :
  match lstrip s with
  | EmptyString => True
  | String c _ => is_space c = false
  end.
Proof.
  induction s as [ | c s IH]; [exact I | ].
  cbn [lstrip]. destruct (is_space c) eqn:E; [exact IH | exact E].
Qed.

Lemma lstrip_fixed (s : string) :
  match s with EmptyString => True | String c _ => is_space c = false end →
  lstrip s = s.
Proof. destruct s as [ | c s]; [reflexivity | ]. cbn. intros ->. reflexivity. Qed.

Lemma rstrip_idempotent (s : string) : rstrip (rstrip s) = rstrip s.
Proof.
  induction s as [ | c s IH]; [reflexivity | ].
  cbn [rstrip]. destruct (rstrip s) as [ | r rs] eqn:E.
  - destruct (is_space c) eqn:Ec; [reflexivity | ]. cbn. rewrite Ec. reflexivity.
  - cbn [rstrip]. cbn [rstrip] in IH. rewrite IH. reflexivity.
Qed.

Lemma rstrip_head (s : string) :
  match s with EmptyString => True | String c _ => is_space c = false end →
  match rstrip s with EmptyString => True | String c _ => is_space c = false end.
Proof.
  destruct s as [ | c s]; [tauto | ]. intros Hc. cbn [rstrip].
  destruct (rstrip s); [rewrite Hc | ]; exact Hc.
Qed.

(** [strip] leaves nothing to strip. *)
Lemma strip_idempotent (s : string) : strip (strip s) = strip s.
Proof.
  unfold strip.
  rewrite (lstrip_fixed (rstrip (lstrip s))) by apply rstrip_head, lstrip_head.
  apply rstrip_idempotent.
Qed.

(** No piece of a split holds the separator. *)
Lemma split_no_sep (sep : ascii) (s piece : string) :
  piece ∈ split sep s → ¬ In sep (list_ascii_of_string piece).
Proof.
  revert piece. induction s as [ | c s IH]; intros piece Hin.
  - cbn in Hin. apply list_elem_of_singleton in Hin. subst. cbn. tauto.
  - cbn [split] in Hin. destruct (Ascii.eqb c sep) eqn:Ec.
    + apply elem_of_cons in Hin as [-> | Hin]; [cbn; tauto | apply IH, Hin].
    + apply Ascii.eqb_neq in Ec.
      destruct (split sep s) as [ | w ws] eqn:E.
      * apply list_elem_of_singleton in Hin. subst. cbn. intros [H | []]. congruence.
      * apply elem_of_cons in Hin as [-> | Hin].
        -- cbn. intros [H | H]; [congruence | ].
           apply (IH w); [apply list_elem_of_here | exact H].
        -- apply IH, list_elem_of_further, Hin.
Qed.

Lemma contains_char_false (c : ascii) (s : string) :
  contains (String c EmptyString) s = false ↔ ¬ In c (list_ascii_of_string s).
Proof.
  rewrite <- contains_char.
  destruct (contains _ s); split; try tauto; try discriminate;
    intros H; exfalso; apply H; reflexivity.
Qed.

End TextFacts.

(** ** More on [optimize_portfolio] *)

Module OptimizeMore.
Import Py Notions Notions2 NumFacts ODictFacts Optimize TextFacts.
Local Open Scope Q_scope.

Lemma foldl_invariant {A B} (P : A → Prop) (f : A → B → A) (l : list B) (a : A) :
  P a → (∀ a x, x ∈ l → P a → P (f a x)) → P (foldl f a l).
Proof.
  revert a. induction l as [ | x l IH]; intros a Ha Hstep; [exact Ha | ].
  cbn [foldl]. apply IH.
  - apply Hstep; [apply list_elem_of_here | exact Ha].
  - intros a' x' Hx'. apply Hstep, list_elem_of_further, Hx'.
Qed.

Lemma set_keys_Forall {V} (P : string → Prop) (d : list (string * V)) (k : string) (v : V) :
  P k → Forall P d.*1 → Forall P (ODict.set k v d).*1.
Proof.
  intros Hk Hd. rewrite set_keys. destruct (decide (k ∈ d.*1)); [exact Hd | ].
  apply Forall_app. split; [exact Hd | repeat constructor; exact Hk].
Qed.

(** The keys that lines 9-22 store are distinct, carry no space around
    them and hold neither a colon nor a comma. *)
Theorem parse_holdings_keys (svc : services) (holdings_str : string) :
  NoDup (parse_holdings svc holdings_str).*1
  ∧ Forall (λ k, Text.strip k = k
                 ∧ Text.contains ":" k = false ∧ Text.contains "," k = false)
           (parse_holdings svc holdings_str).*1.
Proof.
  unfold parse_holdings.
  apply (foldl_invariant
           (λ d : list (string * Q),
              NoDup d.*1
              ∧ Forall (λ k, Text.strip k = k
                             ∧ Text.contains ":" k = false ∧ Text.contains "," k = false)
                       d.*1)).
  { split; constructor. }
  intros d holding Hin [Hnd Hall].
  destruct (negb (Text.contains ":" holding)); [split; assumption | ].
  destruct (Text.split ":" holding) as [ | ticker [ | amount [ | ? ?] ] ] eqn:Es;
    try (split; assumption).
  destruct (float_of_str svc (Text.strip amount)); [ | split; assumption].
  split; [apply set_NoDup, Hnd | ].
  apply set_keys_Forall; [ | exact Hall].
  assert (Hticker : ticker ∈ Text.split ":" holding) by (rewrite Es; apply list_elem_of_here).
  apply list_elem_of_fmap in Hin as (piece & -> & Hpiece).
  split; [apply strip_idempotent | ]. split; apply contains_char_false; intros Hc.
  - apply strip_chars in Hc. apply (split_no_sep _ _ _ Hticker Hc).
  - apply strip_chars in Hc. apply (split_chars _ _ _ _ Hticker) in Hc.
    apply strip_chars in Hc. apply (split_no_sep _ _ _ Hpiece Hc).
Qed.

(** A holdings string without a colon holds no holding: the answer is the
    error about the format. *)
Theorem optimize_portfolio_without_colon (svc : services) (holdings_str : string) :
  Text.contains ":" holdings_str = false →
  optimize_portfolio svc holdings_str
  = failure "Invalid portfolio format. Please use format: AAPL:100,MSFT:50".
Proof.
  intros Hno. unfold optimize_portfolio.
  assert (E : parse_holdings svc holdings_str = []).
  { unfold parse_holdings.
    apply (foldl_invariant (λ d : list (string * Q), d = [])); [reflexivity | ].
    intros d holding Hin ->.
    assert (Hc : Text.contains ":" holding = false).
    { apply contains_char_false. intros Hc.
      apply list_elem_of_fmap in Hin as (piece & -> & Hpiece).
      apply strip_chars in Hc. apply (split_chars _ _ _ _ Hpiece) in Hc.
      apply contains_char_false in Hno. contradiction. }
    rewrite Hc. reflexivity. }
  rewrite E. reflexivity.
Qed.

Lemma optimize_portfolio_without_colon_witness :
  Text.contains ":" "AAPL 100, MSFT 50" = false
  ∧ optimize_portfolio Examples.sixty_forty "AAPL 100, MSFT 50"
    = failure "Invalid portfolio format. Please use format: AAPL:100,MSFT:50".
Proof.
  split; [reflexivity | ].
  apply (optimize_portfolio_without_colon Examples.sixty_forty "AAPL 100, MSFT 50").
  reflexivity.
Defined.

(** The answer of [optimize_portfolio] is either a result, with a
    performance and no error, or an error, with no allocation and no
    performance. *)
Theorem optimize_portfolio_error_or_result (svc : services) (holdings_str : string) :
  let r := optimize_portfolio svc holdings_str in
  (error r = None ∧ is_Some (performance r))
  ∨ (is_Some (error r) ∧ allocations r = [] ∧ performance r = None).
Proof.
  cbv zeta. unfold optimize_portfolio.
  destruct (parse_holdings svc holdings_str) as [ | h hs]; [right; cbn; eauto | ].
  destruct (fetch_data svc _ []) as [data | e]; [ | right; cbn; eauto].
  cbn [mbind result_bind].
  destruct data as [ | c cs]; [right; cbn; eauto | ].
  destruct (max_sharpe_portfolio svc (c :: cs)) as [[items perf] | e]; [ | right; cbn; eauto].
  cbn [mbind result_bind].
  destruct (format_allocations _ _ _) as [allocations | e]; [ | right; cbn; eauto].
  left. cbn. eauto.
Qed.

Lemma format_allocations_holdings (holdings cleaned_weights items : list (string * Q))
  (allocations : list allocation) :
  format_allocations holdings cleaned_weights items = Ok allocations →
  Forall (λ a, ODict.get (ticker a) holdings = Some (current_amount a)
               ∧ 0 <= optimal_weight a) allocations
  ∧ ticker <$> allocations `sublist_of` items.*1.
Proof.
  revert allocations. induction items as [ | [t w] items IH]; intros allocations Hrun.
  - injection Hrun as <-. split; constructor.
  - cbn [format_allocations] in Hrun. cbn [fmap list_fmap fst].
    destruct (Qltb 0 w) eqn:Hpos.
    + apply Qltb_lt in Hpos. unfold getitem in Hrun.
      destruct (ODict.get t holdings) as [current | ] eqn:Eh; [ | discriminate Hrun].
      cbn [mbind result_bind] in Hrun.
      destruct (ODict.get t cleaned_weights) as [w' | ]; [ | discriminate Hrun].
      cbn [mbind result_bind] in Hrun.
      destruct (pydiv (current * w) w') as [q | ]; [ | discriminate Hrun].
      cbn [mbind result_bind] in Hrun.
      destruct (format_allocations holdings cleaned_weights items) as [more | e];
        [ | discriminate Hrun].
      cbn in Hrun. injection Hrun as <-.
      destruct (IH more eq_refl) as [Hall Hsub]. split.
      * constructor; [ | exact Hall]. cbn. split; [exact Eh | ].
        unfold round2.
        assert (0 <= round_half_even (w * 100 * 100))%Z.
        { destruct (round_half_even_cases (w * 100 * 100)) as [[-> _] | [-> _]].
          - change 0%Z with (Qfloor 0). apply Qfloor_resp_le. lra.
          - assert (0 <= Qfloor (w * 100 * 100))%Z; [ | lia].
            change 0%Z with (Qfloor 0). apply Qfloor_resp_le. lra. }
        apply Qle_shift_div_l; [reflexivity | ].
        rewrite Qmult_0_l. change 0 with (inject_Z 0). rewrite <- Zle_Qle. assumption.
      * cbn [fmap list_fmap ticker]. apply sublist_skip, Hsub.
    + destruct (IH allocations Hrun) as [Hall Hsub]. split; [exact Hall | ].
      apply sublist_cons, Hsub.
Qed.

(** Every allocation that [optimize_portfolio] returns is about a ticker
    of the holdings string and carries the amount given there; no ticker
    comes twice and no weight is negative. *)
Theorem optimize_portfolio_allocations (svc : services) (holdings_str : string) :
  let r := optimize_portfolio svc holdings_str in
  Forall (λ a, ODict.get (ticker a) (parse_holdings svc holdings_str) = Some (current_amount a)
               ∧ 0 <= optimal_weight a)
         (allocations r)
  ∧ NoDup (ticker <$> allocations r).
Proof.
  cbv zeta. unfold optimize_portfolio.
  destruct (parse_holdings svc holdings_str) as [ | h hs] eqn:Eh; [split; constructor | ].
  rewrite <- Eh. set (holdings := parse_holdings svc holdings_str).
  destruct (fetch_data svc holdings.*1 []) as [data | e]; [ | split; constructor].
  cbn [mbind result_bind].
  destruct data as [ | c cs]; [split; constructor | ].
  destruct (max_sharpe_portfolio svc (c :: cs)) as [[items perf] | e]; [ | split; constructor].
  cbn [mbind result_bind].
  destruct (format_allocations holdings (ODict.of_items items) (ODict.of_items items))
    as [allocations | e] eqn:Ef; [ | split; constructor].
  cbn. destruct (format_allocations_holdings _ _ _ _ Ef) as [Hall Hsub].
  split; [exact Hall | ].
  apply (sublist_NoDup _ _ (of_items_NoDup items) Hsub).
Qed.

End OptimizeMore.

(** ** More on [calculate_portfolio_metrics] *)

Module MetricsMore.
Import Py Notions Notions2 NumFacts SumFacts DictFacts Metrics MetricsFacts.
Local Open Scope Q_scope.

Section history.
Context (svc : services).





End history.


Section sums.
Context (svc : services).

Lemma sumQ_scaled {A} (g : A → Q) (l : list A) (total : Q) :
  ¬ total == 0 →
  sumQ ((λ t, g t / total) <$> l) * total == foldr (λ t acc, g t + acc) 0 l.
Proof.
  intros Hnz. induction l as [ | t l IH]; [cbn; lra | ].
  cbn [fmap list_fmap]. unfold sumQ in *. cbn [foldr]. rewrite <- IH. field. exact Hnz.
Qed.

(** The weight vector of line 176 has one entry per holding; times the
    total, the weights add up to the sum of the values of the holdings, so
    that without an override they add up to 1 unless the holdings are worth
    nothing. *)
Theorem weights_add_up (holdings : list holding) (ov : option pyscalar) :
  ∃ w, weights svc holdings ov = Ok w
       ∧ length w = length holdings
       ∧ sumQ w * denominator svc holdings ov == holdings_sum svc holdings
       ∧ (ov = None → ¬ holdings_sum svc holdings == 0 → sumQ w == 1).
Proof.
  pose proof (effective_total_nonzero svc (holdings_sum svc holdings) ov) as Hnz.
  fold (denominator svc holdings ov) in Hnz.
  eexists. split; [unfold weights; apply weights_defined, Hnz | ].
  assert (Hsum : sumQ ((λ t, value_of (prices_of svc holdings) (amounts_of holdings) t
                            / denominator svc holdings ov) <$> tickers_of holdings)
                 * denominator svc holdings ov == holdings_sum svc holdings).
  { rewrite (sumQ_scaled _ _ _ Hnz). unfold holdings_sum, computed_sum.
    rewrite foldl_sum. lra. }
  split; [unfold tickers_of; rewrite !length_fmap; reflexivity | ].
  split; [exact Hsum | ].
  intros -> Hpos.
  assert (Hd : denominator svc holdings None == holdings_sum svc holdings).
  { unfold denominator, effective_total, overridden_total.
    destruct (Qeq_bool (holdings_sum svc holdings) 0) eqn:E; [ | reflexivity].
    apply Qeq_bool_iff in E. contradiction. }
  rewrite Hd in Hsum.
  apply (Qmult_inj_r _ _ (holdings_sum svc holdings) Hpos). rewrite Hsum. lra.
Qed.

(** The sectors that have a total are those of the tickers. *)
Lemma sector_totals_dom (holdings : list holding) :
  dom (sector_totals svc holdings) = distinct_sectors svc holdings.
Proof.
  apply set_eq. intros s. rewrite elem_of_dom. unfold distinct_sectors.
  rewrite elem_of_list_to_set, list_elem_of_omap.
  unfold sector_totals, sector_totals_of.
  pose proof (lookup_foldl_accumulate
                (λ t, default "Other"%string (sectors_of svc holdings !! t))
                (value_of (prices_of svc holdings) (amounts_of holdings))
                (tickers_of holdings) ∅ s) as H.
  cbv zeta.
  assert (Hkey : ∀ t, t ∈ tickers_of holdings →
            sector_of_ticker svc holdings t
            = Some (default "Other"%string (sectors_of svc holdings !! t))).
  { intros t Ht. rewrite sectors_lookup. unfold sector_of_ticker.
    unfold tickers_of in Ht. apply list_elem_of_fmap in Ht as (h & -> & Hh).
    destruct (last_row_is_Some ticker holdings h Hh) as [h' ->]. reflexivity. }
  destruct (foldl _ _ (tickers_of holdings) !! s) as [v | ].
  - destruct H as [_ [Hd | (t & Ht & Hk)]].
    + rewrite lookup_empty in Hd. destruct Hd as [? Hd]. discriminate Hd.
    + split; [intros _ | eauto]. exists t. split; [exact Ht | ].
      rewrite (Hkey t Ht), Hk. reflexivity.
  - destruct H as [_ Hall]. split; [intros [? H]; discriminate H | ].
    intros (t & Ht & Hs). exfalso. apply (Hall t Ht).
    rewrite (Hkey t Ht) in Hs. injection Hs as Hs. exact Hs.
Qed.

(** The keys of [sector_exposure] are exactly the distinct sectors of the
    holdings, a holding without a sector of its own counting under the
    sector the market gives it or under [Other]. *)
Theorem sector_exposure_keys (holdings : list holding) (ov : option pyscalar) :
  match calculate_portfolio_metrics svc holdings ov with
  | Ok m => dom (sector_exposure m) = distinct_sectors svc holdings
  | Raise e => e = ExternalError "numpy"
  end.
Proof.
  destruct holdings as [ | h hs] eqn:E.
  - cbn. rewrite dom_empty_L. reflexivity.
  - rewrite calculate_portfolio_metrics_formula by discriminate. rewrite <- E.
    unfold metrics_formula. cbv zeta.
    assert (Hdom : dom ((λ v, round2 (100 * v / denominator svc holdings ov))
                          <$> sector_totals svc holdings)
                   = distinct_sectors svc holdings).
    { rewrite dom_fmap_L. apply sector_totals_dom. }
    destruct (decide (history_frame svc (tickers_of holdings) = ∅)); [exact Hdom | ].
    destruct (portfolio_stats svc _ _ _) as [[r v] | ]; [exact Hdom | reflexivity].
Qed.

(** The diversification score lies between 0 and 100; it is 20 or more as
    soon as there is a holding, and 100 from seventeen holdings on. *)
Theorem diversification_score_bounds (holdings : list holding) (ov : option pyscalar) :
  match calculate_portfolio_metrics svc holdings ov with
  | Ok m =>
      (0 ≤ diversification_score m ≤ 100)%Z
      ∧ (holdings ≠ [] → 20 ≤ diversification_score m)%Z
      ∧ ((17 ≤ length holdings)%nat → diversification_score m = 100%Z)
  | Raise e => e = ExternalError "numpy"
  end.
Proof.
  destruct holdings as [ | h hs] eqn:E.
  - cbn. split; [lia | ]. split; [intros H; contradiction | intros H; inversion H].
  - rewrite calculate_portfolio_metrics_formula by discriminate. rewrite <- E.
    unfold metrics_formula. cbv zeta.
    assert (Hsize : (1 ≤ size (map_img (sectors_of svc holdings) : gset string))%nat).
    { assert (Hh : h ∈ holdings) by (rewrite E; apply list_elem_of_here).
      destruct (last_row_is_Some ticker holdings h Hh) as [h' Hh'].
      assert (Hin : resolve_sector svc h' ∈ (map_img (sectors_of svc holdings) : gset string)).
      { apply elem_of_map_img. exists (ticker h). rewrite sectors_lookup.
        unfold sector_of_ticker. rewrite Hh'. reflexivity. }
      destruct (size (map_img (sectors_of svc holdings) : gset string)) eqn:Es; [ | lia].
      apply size_empty_inv in Es. rewrite Es in Hin. apply elem_of_empty in Hin.
      destruct Hin. }
    assert (Hlen : (1 ≤ length (tickers_of holdings))%nat).
    { unfold tickers_of. rewrite length_fmap, E. cbn. lia. }
    assert (Hscore :
      (0 ≤ diversification_of (sectors_of svc holdings) (tickers_of holdings) ≤ 100)%Z
      ∧ (holdings ≠ [] →
         20 ≤ diversification_of (sectors_of svc holdings) (tickers_of holdings))%Z
      ∧ ((17 ≤ length holdings)%nat →
         diversification_of (sectors_of svc holdings) (tickers_of holdings) = 100%Z)).
    { unfold diversification_of. split; [lia | ]. split; [lia | ].
      intros H17. unfold tickers_of. rewrite length_fmap. lia. }
    destruct (decide (history_frame svc (tickers_of holdings) = ∅)); [exact Hscore | ].
    destruct (portfolio_stats svc _ _ _) as [[r v] | ]; [exact Hscore | reflexivity].
Qed.

Lemma map_sum_insert (m : gmap string Q) (k : string) (v : Q) :
  m !! k = None → map_sum (<[k := v]> m) == v + map_sum m.
Proof.
  intros Hk. unfold map_sum.
  rewrite (sumQ_perm _ ((k, v) :: map_to_list m).*2).
  - reflexivity.
  - apply fmap_Permutation, map_to_list_insert, Hk.
Qed.

Lemma map_sum_accumulate (m : gmap string Q) (k : string) (g : Q) :
  map_sum (<[k := default 0 (m !! k) + g]> m) == map_sum m + g.
Proof.
  destruct (m !! k) as [v0 | ] eqn:E; cbn [default from_option]; unfold id.
  - rewrite <- (insert_delete_eq m k (v0 + g)).
    rewrite map_sum_insert by apply lookup_delete_eq.
    rewrite <- (insert_delete_id m k v0 E) at 2.
    rewrite map_sum_insert by apply lookup_delete_eq. lra.
  - rewrite map_sum_insert by exact E. lra.
Qed.

(** The totals of the sectors add up to the value of the holdings. *)
Lemma sector_totals_sum (holdings : list holding) :
  map_sum (sector_totals svc holdings) == holdings_sum svc holdings.
Proof.
  unfold sector_totals, sector_totals_of, holdings_sum, computed_sum.
  rewrite foldl_sum.
  set (k := λ t, default "Other"%string (sectors_of svc holdings !! t)).
  set (g := value_of (prices_of svc holdings) (amounts_of holdings)).
  assert (H : ∀ l (d : gmap string Q),
            map_sum (foldl (λ d t, <[k t := default 0 (d !! k t) + g t]> d) d l)
            == map_sum d + foldr (λ t acc, g t + acc) 0 l).
  { induction l as [ | t l IH]; intros d; cbn [foldl foldr]; [lra | ].
    rewrite IH, map_sum_accumulate. lra. }
  etransitivity; [exact (H (tickers_of holdings) ∅) | ].
  unfold map_sum. rewrite map_to_list_empty. reflexivity.
Qed.

(** The percentages of [sector_exposure] add up to 100 times the value of
    the holdings over the total, within half a hundredth per sector: to 100,
    within that margin, when there is no override and the holdings are
    worth something. *)
Theorem sector_exposure_adds_up (holdings : list holding) (ov : option pyscalar) :
  match calculate_portfolio_metrics svc holdings ov with
  | Ok m =>
      let margin := inject_Z (Z.of_nat (size (sector_exposure m))) * (1 # 200) in
      Qabs (map_sum (sector_exposure m)
            - 100 * holdings_sum svc holdings / denominator svc holdings ov) <= margin
      ∧ (ov = None → ¬ holdings_sum svc holdings == 0 →
         Qabs (map_sum (sector_exposure m) - 100) <= margin)
  | Raise e => e = ExternalError "numpy"
  end.
Proof.
  pose proof (effective_total_nonzero svc (holdings_sum svc holdings) ov) as Hnz.
  fold (denominator svc holdings ov) in Hnz.
  set (T := denominator svc holdings ov) in *.
  assert (Hmain : ∀ exposure,
    exposure = (λ v, round2 (100 * v / T)) <$> sector_totals svc holdings →
    let margin := inject_Z (Z.of_nat (size exposure)) * (1 # 200) in
    Qabs (map_sum exposure - 100 * holdings_sum svc holdings / T) <= margin
    ∧ (ov = None → ¬ holdings_sum svc holdings == 0 →
       Qabs (map_sum exposure - 100) <= margin)).
  { intros exposure ->. cbv zeta.
    assert (Hfirst :
      Qabs (map_sum ((λ v, round2 (100 * v / T)) <$> sector_totals svc holdings)
            - 100 * holdings_sum svc holdings / T)
      <= inject_Z (Z.of_nat (size ((λ v, round2 (100 * v / T))
                                   <$> sector_totals svc holdings))) * (1 # 200)).
    { unfold map_sum at 1. rewrite map_to_list_fmap, <- list_fmap_compose.
      rewrite map_size_fmap.
      replace (size (sector_totals svc holdings))
        with (length ((λ v, 100 * v / T) <$> (map_to_list (sector_totals svc holdings)).*2)).
      2:{ rewrite !length_fmap. apply length_map_to_list. }
      pose proof (sumQ_round2 ((λ v, 100 * v / T)
                                 <$> (map_to_list (sector_totals svc holdings)).*2)) as Hr.
      rewrite <- list_fmap_compose in Hr.
      rewrite (sumQ_percent _ T Hnz) in Hr.
      fold (map_sum (sector_totals svc holdings)) in Hr.
      rewrite sector_totals_sum in Hr.
      rewrite <- list_fmap_compose in Hr. exact Hr. }
    split; [exact Hfirst | ].
    intros -> Hpos.
    assert (Hd : T == holdings_sum svc holdings).
    { unfold T, denominator, effective_total, overridden_total.
      destruct (Qeq_bool (holdings_sum svc holdings) 0) eqn:E; [ | reflexivity].
      apply Qeq_bool_iff in E. contradiction. }
    assert (H100 : 100 * holdings_sum svc holdings / T == 100).
    { rewrite Hd. field. exact Hpos. }
    rewrite H100 in Hfirst. exact Hfirst. }
  destruct (decide (holdings = [])) as [E | Hne].
  - clear Hmain. subst holdings.
    cbn [calculate_portfolio_metrics sector_exposure]. cbv zeta.
    assert (H0 : map_sum ∅ - 100 * holdings_sum svc [] / T == 0).
    { unfold map_sum. rewrite map_to_list_empty. cbn. field. exact Hnz. }
    split.
    + rewrite H0. cbn. discriminate.
    + intros _ Hpos. exfalso. apply Hpos. reflexivity.
  - rewrite calculate_portfolio_metrics_formula by exact Hne.
    unfold metrics_formula. cbv zeta. fold T.
    destruct (decide (history_frame svc (tickers_of holdings) = ∅));
      [cbn [sector_exposure]; apply Hmain; reflexivity | ].
    destruct (portfolio_stats svc _ _ _) as [[r v] | ];
      [cbn [sector_exposure]; apply Hmain; reflexivity | reflexivity].
Qed.

End sums.

End MetricsMore.
(** ** More on the retries: how many calls, how long a wait *)

Module RetryMore.
Import Py Trace Notions Notions2 NumFacts SumFacts RetryFacts.
Local Open Scope Q_scope.

Lemma pow2_succ (k : nat) : 2 ^ Z.of_nat (S k) == 2 * 2 ^ Z.of_nat k.
Proof.
  rewrite Nat2Z.inj_succ, <- Z.add_1_r, Qpower_plus by (intros E; discriminate E).
  change (2 ^ 1) with 2. lra.
Qed.

Section groq.
Import Groq.
Context (client : nat → outcome) (retries : nat).

Lemma attempts_bounds (remaining attempt : nat) (delay : Q) :
  let r := attempts client retries remaining attempt delay in
  (∃ text, r.1 = Ok text)
  ∧ (length (groq_calls r.2) ≤ remaining)%nat
  ∧ (length (sleeps r.2) ≤ length (groq_calls r.2))%nat
  ∧ sumQ (sleeps r.2) == delay * (2 ^ Z.of_nat (length (sleeps r.2)) - 1).
Proof.
  cbv zeta. revert attempt delay.
  induction remaining as [ | remaining IH]; intros attempt delay.
  - split; [cbn; eauto | ]. split; [cbn; lia | ]. split; [cbn; lia | ].
    change (0 == delay * (1 - 1)). lra.
  - cbn [attempts]. rewrite emit_bind.
    assert (Hstep :
      let r := attempts client retries remaining (S attempt) (delay * 2) in
      let r' := (r.1, GroqCall attempt :: Sleep delay :: r.2) in
      (∃ text, r'.1 = Ok text)
      ∧ (length (groq_calls r'.2) ≤ S remaining)%nat
      ∧ (length (sleeps r'.2) ≤ length (groq_calls r'.2))%nat
      ∧ sumQ (sleeps r'.2) == delay * (2 ^ Z.of_nat (length (sleeps r'.2)) - 1)).
    { cbv zeta. cbn [fst snd].
      destruct (IH (S attempt) (delay * 2)) as (Hok & Hcalls & Hsleeps & Hsum).
      change (groq_calls (GroqCall attempt :: Sleep delay :: ?l))
        with (attempt :: groq_calls l).
      change (sleeps (GroqCall attempt :: Sleep delay :: ?l)) with (delay :: sleeps l).
      cbn [length]. split; [exact Hok | ]. split; [lia | ]. split; [lia | ].
      unfold sumQ in *. cbn [foldr]. rewrite Hsum, pow2_succ. lra. }
    assert (Hstop : ∀ text : string,
      (∃ t, (Ok text, [GroqCall attempt]).1 = Ok t)
      ∧ (length (groq_calls [GroqCall attempt]) ≤ S remaining)%nat
      ∧ (length (sleeps [GroqCall attempt]) ≤ length (groq_calls [GroqCall attempt]))%nat
      ∧ sumQ (sleeps [GroqCall attempt])
        == delay * (2 ^ Z.of_nat (length (sleeps [GroqCall attempt])) - 1)).
    { intros text. split; [cbn; eauto | ]. split; [cbn; lia | ]. split; [cbn; lia | ].
      change (0 == delay * (1 - 1)). lra. }
    destruct (client attempt) as [text | msg].
    + apply Hstop.
    + destruct (is_rate_limit msg).
      * rewrite emit_bind. exact Hstep.
      * destruct (S attempt =? retries)%nat.
        -- apply Hstop.
        -- rewrite emit_bind. exact Hstep.
Qed.

End groq.


Section polygon.
Import History.

Lemma reduced_attempts_bounds (get : nat → http_outcome) (ticker : string)
  (from_date to_date : Z) (remaining attempt : nat) :
  let r := reduced_attempts get ticker from_date to_date remaining attempt in
  (∃ s, r.1 = Ok s ∧ s ≠ Some [])
  ∧ (polygon_requests r.2 ≤ remaining)%nat
  ∧ Forall (λ d, 0 <= d) (sleeps r.2)
  ∧ sumQ (sleeps r.2) <= 5 * inject_Z (Z.of_nat remaining).
Proof.
  cbv zeta. revert attempt.
  induction remaining as [ | remaining IH]; intros attempt.
  - cbn. split; [eexists; split; [reflexivity | discriminate] | ].
    split; [lia | ]. split; [constructor | ].
    unfold sumQ. cbn. discriminate.
  - cbn [reduced_attempts]. rewrite emit_bind.
    rewrite Nat2Z.inj_succ, <- Z.add_1_r, inject_Z_plus. change (inject_Z 1) with 1.
    destruct (IH (S attempt)) as (Hok & Hreq & Hpos & Hsum).
    set (rest := reduced_attempts get ticker from_date to_date remaining (S attempt)) in *.
    assert (Hplain :
      (∃ s, rest.1 = Ok s ∧ s ≠ Some [])
      ∧ (polygon_requests (PolygonGet ticker from_date to_date :: rest.2) ≤ S remaining)%nat
      ∧ Forall (λ d, 0 <= d) (sleeps (PolygonGet ticker from_date to_date :: rest.2))
      ∧ sumQ (sleeps (PolygonGet ticker from_date to_date :: rest.2))
        <= 5 * (inject_Z (Z.of_nat remaining) + 1)).
    { split; [exact Hok | ].
      change (polygon_requests (PolygonGet ticker from_date to_date :: rest.2))
        with (S (polygon_requests rest.2)).
      change (sleeps (PolygonGet ticker from_date to_date :: rest.2)) with (sleeps rest.2).
      split; [lia | ]. split; [exact Hpos | lra]. }
    assert (Hwait : ∀ d, 0 <= d → d <= 5 →
      (∃ s, rest.1 = Ok s ∧ s ≠ Some [])
      ∧ (polygon_requests (PolygonGet ticker from_date to_date :: Sleep d :: rest.2)
         ≤ S remaining)%nat
      ∧ Forall (λ d, 0 <= d) (sleeps (PolygonGet ticker from_date to_date :: Sleep d :: rest.2))
      ∧ sumQ (sleeps (PolygonGet ticker from_date to_date :: Sleep d :: rest.2))
        <= 5 * (inject_Z (Z.of_nat remaining) + 1)).
    { intros d Hd0 Hd5. split; [exact Hok | ].
      change (polygon_requests (PolygonGet ticker from_date to_date :: Sleep d :: rest.2))
        with (S (polygon_requests rest.2)).
      change (sleeps (PolygonGet ticker from_date to_date :: Sleep d :: rest.2))
        with (d :: sleeps rest.2).
      split; [lia | ]. split; [constructor; assumption | ].
      unfold sumQ in *. cbn [foldr]. lra. }
    destruct (get attempt) as [ | status_code results].
    + rewrite emit_bind. apply Hwait; [discriminate | discriminate].
    + destruct (status_code =? 200)%Z.
      * destruct results as [ | x results]; [exact Hplain | ].
        cbn. split; [eexists; split; [reflexivity | discriminate] | ].
        split; [lia | ]. split; [constructor | ].
        unfold sumQ. cbn [foldr].
        assert (0 <= inject_Z (Z.of_nat remaining)).
        { change 0 with (inject_Z 0). rewrite <- Zle_Qle. lia. }
        lra.
      * destruct (status_code =? 429)%Z; [ | exact Hplain].
        rewrite emit_bind. apply Hwait; discriminate.
Qed.

Lemma polygon_ticker_run (full : http_outcome) (reduced : nat → http_outcome)
  (ticker : string) (from_date to_date : Z) :
  let r := polygon_ticker full reduced ticker from_date to_date in
  (∃ s, r.1 = Ok s ∧ s ≠ Some [])
  ∧ (1 ≤ polygon_requests r.2 ≤ 4)%nat
  ∧ sumQ (sleeps r.2) <= 15.
Proof.
  cbv zeta. unfold polygon_ticker. rewrite emit_bind.
  destruct (reduced_attempts_bounds reduced ticker (to_date - 365 * 5) to_date 3 0)
    as (Hok & Hreq & _ & Hsum).
  set (rest := reduced_attempts reduced ticker (to_date - 365 * 5) to_date 3 0) in *.
  assert (Hladder :
    (∃ s, rest.1 = Ok s ∧ s ≠ Some [])
    ∧ (1 ≤ polygon_requests (PolygonGet ticker from_date to_date :: rest.2) ≤ 4)%nat
    ∧ sumQ (sleeps (PolygonGet ticker from_date to_date :: rest.2)) <= 15).
  { change (polygon_requests (PolygonGet ticker from_date to_date :: rest.2))
      with (S (polygon_requests rest.2)).
    change (sleeps (PolygonGet ticker from_date to_date :: rest.2)) with (sleeps rest.2).
    split; [exact Hok | ]. split; [lia | exact Hsum]. }
  assert (Hone : ∀ s : option (list (Z * Q)), s ≠ Some [] →
    (∃ s', (Ok s, [PolygonGet ticker from_date to_date]).1 = Ok s' ∧ s' ≠ Some [])
    ∧ (1 ≤ polygon_requests [PolygonGet ticker from_date to_date] ≤ 4)%nat
    ∧ sumQ (sleeps [PolygonGet ticker from_date to_date]) <= 15).
  { intros s Hs. cbn. split; [eauto | ]. split; [lia | ].
    unfold sumQ. cbn. discriminate. }
  destruct full as [ | status_code results]; [apply Hone; discriminate | ].
  destruct (status_code =? 200)%Z; destruct results; try exact Hladder.
  apply Hone. discriminate.
Qed.

(** One ticker of [get_polygon_history_batch]. The ticker is given up
    without an exception; a series that is stored is not empty. There are
    1 to 4 requests and at most 15 seconds of waiting. An answer with data
    to the first request ends the work on the ticker; an exception raised
    by the first request ends it as well, the reduced range not being
    tried. *)
Theorem polygon_ticker_bounds (full : http_outcome) (reduced : nat → http_outcome)
  (ticker : string) (from_date to_date : Z) :
  let r := polygon_ticker full reduced ticker from_date to_date in
  (∃ s, r.1 = Ok s ∧ s ≠ Some [])
  ∧ (1 ≤ polygon_requests r.2 ≤ 4)%nat
  ∧ Forall (λ d, 0 <= d) (sleeps r.2)
  ∧ sumQ (sleeps r.2) <= 15
  ∧ (full = HttpRaise → r = (Ok None, [PolygonGet ticker from_date to_date]))
  ∧ (∀ results, polygon_series full = Some results →
       r = (Ok (Some results), [PolygonGet ticker from_date to_date])).
Proof.
  cbv zeta. unfold polygon_ticker. rewrite emit_bind.
  assert (Hone : ∀ s : option (list (Z * Q)), s ≠ Some [] →
    (∃ s', (Ok s, [PolygonGet ticker from_date to_date]).1 = Ok s' ∧ s' ≠ Some [])
    ∧ (1 ≤ polygon_requests [PolygonGet ticker from_date to_date] ≤ 4)%nat
    ∧ Forall (λ d, 0 <= d) (sleeps [PolygonGet ticker from_date to_date])
    ∧ sumQ (sleeps [PolygonGet ticker from_date to_date]) <= 15).
  { intros s Hs. cbn. split; [eauto | ]. split; [lia | ].
    split; [constructor | ]. unfold sumQ. cbn. discriminate. }
  assert (Hladder :
    let rest := reduced_attempts reduced ticker (to_date - 365 * 5) to_date 3 0 in
    (∃ s, rest.1 = Ok s ∧ s ≠ Some [])
    ∧ (1 ≤ polygon_requests (PolygonGet ticker from_date to_date :: rest.2) ≤ 4)%nat
    ∧ Forall (λ d, 0 <= d) (sleeps (PolygonGet ticker from_date to_date :: rest.2))
    ∧ sumQ (sleeps (PolygonGet ticker from_date to_date :: rest.2)) <= 15).
  { cbv zeta.
    destruct (reduced_attempts_bounds reduced ticker (to_date - 365 * 5) to_date 3 0)
      as (Hok & Hreq & Hpos & Hsum).
    set (rest := reduced_attempts reduced ticker (to_date - 365 * 5) to_date 3 0) in *.
    change (polygon_requests (PolygonGet ticker from_date to_date :: rest.2))
      with (S (polygon_requests rest.2)).
    change (sleeps (PolygonGet ticker from_date to_date :: rest.2)) with (sleeps rest.2).
    split; [exact Hok | ]. split; [lia | ].
    split; [exact Hpos | ]. exact Hsum. }
  cbv zeta in Hladder.
  destruct full as [ | status_code results].
  - destruct (Hone None) as (H1 & H2 & H4 & H5); [discriminate | ].
    repeat (split; [assumption | ]). split; [reflexivity | ].
    intros results H. discriminate H.
  - destruct (status_code =? 200)%Z eqn:E200.
    + apply Z.eqb_eq in E200. subst status_code.
      destruct results as [ | x results].
      * destruct Hladder as (H1 & H2 & H4 & H5).
        repeat (split; [assumption | ]). split; [intros H; discriminate H | ].
        intros results H. discriminate H.
      * destruct (Hone (Some (x :: results))) as (H1 & H2 & H4 & H5); [discriminate | ].
        repeat (split; [assumption | ]). split; [intros H; discriminate H | ].
        intros results' H. injection H as <-. reflexivity.
    + destruct Hladder as (H1 & H2 & H4 & H5).
      assert (Hnone : polygon_series (HttpStatus status_code results) = None).
      { destruct status_code as [ | p | p]; try reflexivity.
        assert (Z.pos p ≠ 200%Z) by (apply Z.eqb_neq, E200).
        unfold polygon_series.
        repeat (destruct p as [p | p | ]; try reflexivity). contradiction. }
      destruct results; (repeat (split; [assumption | ]));
        (split; [intros H; discriminate H | ]);
        intros results' H; rewrite Hnone in H; discriminate H.
Qed.

Lemma polygon_requests_app (l1 l2 : list event) :
  polygon_requests (l1 ++ l2) = (polygon_requests l1 + polygon_requests l2)%nat.
Proof. unfold polygon_requests. rewrite omap_app, length_app. reflexivity. Qed.

Lemma sleeps_app (l1 l2 : list event) : sleeps (l1 ++ l2) = sleeps l1 ++ sleeps l2.
Proof. apply omap_app. Qed.

Lemma polygon_loop_run (provider : nat → string → option nat → http_outcome)
  (from_date to_date : Z) (tickers : list string) (i : nat)
  (all_data : gmap string (list (Z * Q))) :
  let r := polygon_loop provider from_date to_date i tickers all_data in
  ∃ data, r.1 = Ok data
    ∧ (∀ t s, data !! t = Some s → (t ∈ tickers ∧ s ≠ []) ∨ all_data !! t = Some s)
    ∧ (length tickers ≤ polygon_requests r.2 ≤ 4 * length tickers)%nat
    ∧ sumQ (sleeps r.2) <= 15 * inject_Z (Z.of_nat (length tickers)).
Proof.
  cbv zeta. revert i all_data.
  induction tickers as [ | t tickers IH]; intros i all_data.
  - exists all_data. cbn. split; [reflexivity | ]. split; [auto | ]. split; [lia | ].
    unfold sumQ. cbn. discriminate.
  - cbn [polygon_loop].
    destruct (polygon_ticker_run (provider i t None) (λ n, provider i t (Some n)) t
                from_date to_date) as ((s & Hs & Hne) & Hreq & Hsum).
    set (one := polygon_ticker (provider i t None) (λ n, provider i t (Some n)) t
                  from_date to_date) in *.
    unfold mbind, traced_bind. rewrite Hs.
    set (all_data' := match s with Some s => <[t := s]> all_data | None => all_data end).
    destruct (IH (S i) all_data') as (data & Hdata & Hcols & Hreqs & Hsums).
    set (rest := polygon_loop provider from_date to_date (S i) tickers all_data') in *.
    exists data. cbn [fst snd]. split; [exact Hdata | ]. split; [ | split].
    + intros t' s' Hlook. destruct (Hcols t' s' Hlook) as [[Hin Hs'] | Hold].
      * left. split; [apply list_elem_of_further, Hin | exact Hs'].
      * unfold all_data' in Hold. destruct s as [s | ]; [ | right; exact Hold].
        destruct (decide (t = t')) as [<- | Hneq].
        -- rewrite lookup_insert_eq in Hold. injection Hold as <-.
           left. split; [apply list_elem_of_here | ]. intros ->. apply Hne. reflexivity.
        -- rewrite lookup_insert_ne in Hold by exact Hneq. right. exact Hold.
    + rewrite polygon_requests_app. cbn [length]. lia.
    + rewrite sleeps_app, sumQ_app. cbn [length].
      rewrite Nat2Z.inj_succ, <- Z.add_1_r, inject_Z_plus. change (inject_Z 1) with 1.
      lra.
Qed.

(** [get_polygon_history_batch] never raises. Its result has columns for
    requested tickers only, each holding a series that is not empty; for
    [n] tickers it makes between [n] and [4 * n] requests and waits at
    most [15 * n] seconds. *)
Theorem get_polygon_history_batch_bounds
  (provider : nat → string → option nat → http_outcome) (tickers : list string)
  (from_date to_date : Z) :
  let r := get_polygon_history_batch provider tickers from_date to_date in
  ∃ data, r.1 = Ok data
    ∧ (∀ t s, data !! t = Some s → t ∈ tickers ∧ s ≠ [])
    ∧ (length tickers ≤ polygon_requests r.2 ≤ 4 * length tickers)%nat
    ∧ sumQ (sleeps r.2) <= 15 * inject_Z (Z.of_nat (length tickers)).
Proof.
  cbv zeta. unfold get_polygon_history_batch.
  destruct (polygon_loop_run provider from_date to_date tickers 0 ∅)
    as (data & Hdata & Hcols & Hreqs & Hsums).
  exists data. split; [exact Hdata | ]. split; [ | split; [exact Hreqs | exact Hsums] ].
  intros t s Hlook. destruct (Hcols t s Hlook) as [H | H]; [exact H | ].
  rewrite lookup_empty in H. discriminate H.
Qed.

End polygon.

End RetryMore.
(** ** More on [get_alpha_vantage_history_batch]: the rows of one answer *)

Module HistoryMore.
Import Py Notions History.
Local Open Scope Z_scope.

Lemma parse_rows_Some (rows : list (option Z * option Q)) (acc series : gmap Z Q) :
  parse_rows rows acc = Some series →
  (∀ d v, series !! d = Some v → (Some d, Some v) ∈ rows ∨ acc !! d = Some v)
  ∧ (∀ d, is_Some (acc !! d) → is_Some (series !! d))
  ∧ (∀ d v, (Some d, Some v) ∈ rows → is_Some (series !! d))
  ∧ (∀ row, row ∈ rows → is_Some row.1 ∧ is_Some row.2).
Proof.
  revert acc. induction rows as [ | [[d0 | ] [v0 | ]] rows IH]; intros acc H;
    cbn [parse_rows] in H; try discriminate H.
  - injection H as <-. split; [auto | ]. split; [auto | ].
    split; [intros ? ? Hin; inversion Hin | intros ? Hin; inversion Hin].
  - destruct (IH _ H) as (Hfrom & Hkeep & Hrows & Hok).
    split; [ | split; [ | split] ].
    + intros d v Hlook. destruct (Hfrom d v Hlook) as [Hin | Hacc].
      * left. apply list_elem_of_further, Hin.
      * destruct (decide (d0 = d)) as [-> | Hne].
        -- rewrite lookup_insert_eq in Hacc. injection Hacc as ->.
           left. apply list_elem_of_here.
        -- rewrite lookup_insert_ne in Hacc by exact Hne. right. exact Hacc.
    + intros d Hd. apply Hkeep. destruct (decide (d0 = d)) as [-> | Hne].
      * rewrite lookup_insert_eq. eauto.
      * rewrite lookup_insert_ne by exact Hne. exact Hd.
    + intros d v Hin. apply elem_of_cons in Hin as [Heq | Hin].
      * injection Heq as -> ->. apply Hkeep. rewrite lookup_insert_eq. eauto.
      * apply (Hrows d v Hin).
    + intros row Hin. apply elem_of_cons in Hin as [-> | Hin]; [ | apply Hok, Hin].
      split; eauto.
Qed.

Lemma parse_rows_None (rows : list (option Z * option Q)) (acc : gmap Z Q) :
  parse_rows rows acc = None → ∃ row, row ∈ rows ∧ (row.1 = None ∨ row.2 = None).
Proof.
  revert acc. induction rows as [ | [[d0 | ] [v0 | ]] rows IH]; intros acc H;
    cbn [parse_rows] in H; try discriminate H.
  - destruct (IH _ H) as (row & Hin & Hrow). exists row.
    split; [apply list_elem_of_further, Hin | exact Hrow].
  - exists (Some d0, None). split; [apply list_elem_of_here | right; reflexivity].
  - exists (None, Some v0). split; [apply list_elem_of_here | left; reflexivity].
  - exists (None, None). split; [apply list_elem_of_here | left; reflexivity].
Qed.

(** One answer of Alpha Vantage. A series is stored only for status 200
    and only when every row of the table parses: it then holds rows of the
    table whose date lies in the range asked for, and at least one. The
    ticker is left out when the status is not 200, when some row does not
    parse (the rows in range are lost with it), or when no row lies in the
    range; and when the request raises. *)
Theorem av_series_rows (from_date to_date status_code : Z)
  (rows : list (option Z * option Q)) :
  match av_series from_date to_date (AvStatus status_code rows) with
  | Some s =>
      status_code = 200
      ∧ s ≠ ∅
      ∧ (∀ row, row ∈ rows → is_Some row.1 ∧ is_Some row.2)
      ∧ (∀ d v, s !! d = Some v → from_date ≤ d ≤ to_date ∧ (Some d, Some v) ∈ rows)
  | None =>
      status_code ≠ 200
      ∨ (∃ row, row ∈ rows ∧ (row.1 = None ∨ row.2 = None))
      ∨ (∀ d v, (Some d, Some v) ∈ rows → ¬ (from_date ≤ d ≤ to_date))
  end
  ∧ av_series from_date to_date AvRaise = None.
Proof.
  split; [ | reflexivity].
  unfold av_series. destruct (status_code =? 200) eqn:E200.
  2:{ left. apply Z.eqb_neq, E200. }
  apply Z.eqb_eq in E200.
  destruct rows as [ | row rows].
  { right. right. intros d v Hin. inversion Hin. }
  destruct (parse_rows (row :: rows) ∅) as [series | ] eqn:Ep; cbn [mbind option_bind].
  2:{ right. left. apply parse_rows_None in Ep. exact Ep. }
  destruct (parse_rows_Some _ _ _ Ep) as (Hfrom & _ & Hrows & Hok).
  destruct (decide (filter _ series = ∅)) as [Hempty | Hsome].
  - right. right. intros d v Hin Hrange.
    destruct (Hrows d v Hin) as [v' Hv'].
    assert (Hf : filter (λ dv : Z * Q, from_date ≤ dv.1 ∧ dv.1 ≤ to_date) series !! d
                 = Some v').
    { apply map_lookup_filter_Some. split; [exact Hv' | exact Hrange]. }
    rewrite Hempty, lookup_empty in Hf. discriminate Hf.
  - split; [exact E200 | ]. split; [exact Hsome | ]. split; [exact Hok | ].
    intros d v Hlook. apply map_lookup_filter_Some in Hlook as [Hlook Hrange].
    split; [exact Hrange | ].
    destruct (Hfrom d v Hlook) as [Hin | Hacc]; [exact Hin | ].
    rewrite lookup_empty in Hacc. discriminate Hacc.
Qed.

End HistoryMore.
(** ** More on the [/portfolio] route *)

Module RouteMore.
Import Py Trace Notions Notions2 NumFacts SumFacts ODictFacts MergeFacts RetryFacts
  RetryMore Route.
Local Open Scope Q_scope.

(** *** Shares *)



(** *** The current allocation *)

Lemma fmap_pointwise {A B} (f g : A → B) (l : list A) :
  (∀ x, f x = g x) → f <$> l = g <$> l.
Proof.
  intros H. induction l as [ | x l IH]; [reflexivity | ].
  cbn [fmap list_fmap]. rewrite H. f_equal. exact IH.
Qed.

Lemma total_value_of_sum (valid_holdings : list holding) :
  total_value_of valid_holdings == sumQ ((λ h, amount h * price h) <$> valid_holdings).
Proof.
  unfold total_value_of. rewrite MetricsFacts.foldl_sum.
  induction valid_holdings as [ | h l IH]; unfold sumQ in *; cbn [fmap list_fmap foldr].
  - lra.
  - lra.
Qed.

(** The percentages of the current allocation add up to 100, within half
    a hundredth per holding, unless the holdings are worth nothing, in
    which case every percentage is 0. *)
Theorem current_allocation_adds_up (mkt : Metrics.services)
  (valid_holdings : list holding) :
  let total_value := total_value_of valid_holdings in
  let pcts := c_percentage <$> current_allocation_of mkt valid_holdings total_value in
  length pcts = length valid_holdings
  ∧ (total_value == 0 → Forall (λ p, p = 0) pcts)
  ∧ (¬ total_value == 0 →
     Qabs (sumQ pcts - 100)
     <= inject_Z (Z.of_nat (length valid_holdings)) * (1 # 200)).
Proof.
  cbv zeta. unfold current_allocation_of. rewrite <- list_fmap_compose.
  set (total := total_value_of valid_holdings).
  split; [apply length_fmap | ]. split.
  - intros H0. apply Forall_fmap, Forall_forall. intros h _. cbn.
    rewrite (proj2 (Qeq_bool_iff _ _) H0). reflexivity.
  - intros Hnz.
    assert (Hb : Qeq_bool total 0 = false).
    { destruct (Qeq_bool total 0) eqn:E; [ | reflexivity].
      apply Qeq_bool_iff in E. contradiction. }
    rewrite (fmap_pointwise _ (round2 ∘ (λ v, 100 * v / total) ∘ (λ h, amount h * price h))).
    2:{ intros h. cbn. rewrite Hb. reflexivity. }
    rewrite !list_fmap_compose.
    pose proof (sumQ_round2 ((λ v, 100 * v / total)
                               <$> ((λ h, amount h * price h) <$> valid_holdings))) as Hr.
    rewrite !length_fmap in Hr.
    rewrite (sumQ_percent _ total Hnz) in Hr.
    rewrite <- total_value_of_sum in Hr. fold total in Hr.
    assert (H100 : 100 * total / total == 100) by (field; exact Hnz).
    rewrite H100 in Hr. exact Hr.
Qed.

(** *** The trace of the route *)








Section route.
Context (svc : services) (req : request).



End route.


(** *** The answer of status 200 *)

Lemma bind_200 {A} (P : payload → Prop) (m : traced A) (f : A → traced http_response) :
  (∀ a, m.1 = Ok a →
        match (f a).1 with Ok (Json200 body) => P body | _ => True end) →
  match (m ≫= f).1 with Ok (Json200 body) => P body | _ => True end.
Proof.
  intros Hf. unfold mbind, traced_bind.
  destruct m.1 as [a | e]; cbn [fst]; [apply Hf; reflexivity | exact I].
Qed.

Lemma fill_price_shares_ticker (mkt : Metrics.services) (total_value : Q)
  (l : list optimized_entry) :
  o_ticker <$> (fill_price_shares mkt total_value <$> l) = o_ticker <$> l.
Proof. rewrite <- list_fmap_compose. apply fmap_pointwise. reflexivity. Qed.

Lemma merged_NoDup (mkt : Metrics.services) (total_value : Q)
  (cleaned : list (string * Q)) (ai_analysis : string) :
  NoDup (o_ticker <$> merge_suggested mkt total_value
                        (optimized_allocation_of mkt (ODict.of_items cleaned)) ai_analysis).
Proof.
  unfold merge_suggested. cbv zeta. rewrite fmap_app.
  set (optimized := optimized_allocation_of mkt (ODict.of_items cleaned)).
  assert (Hadded : ∀ (l : list string) pct,
    o_ticker <$> (suggested_entry mkt pct total_value <$> l) = l).
  { intros l pct. induction l as [ | t l IH]; [reflexivity | ].
    cbn [fmap list_fmap]. rewrite suggested_entry_ticker. f_equal. exact IH. }
  rewrite Hadded. apply NoDup_app. split; [ | split].
  - unfold optimized, optimized_allocation_of. rewrite <- list_fmap_compose.
    apply (of_items_NoDup cleaned).
  - intros t Ht Hin. apply elem_of_elements, suggested_members in Hin.
    destruct Hin as (_ & Hnot & _). exact (Hnot Ht).
  - apply NoDup_elements.
Qed.

Lemma portfolio_body_shape (svc : services) (req : request) :
  match (portfolio_body svc req).1 with
  | Ok (Json200 body) =>
      c_ticker <$> top_holdings body = take 5 (ticker <$> valid_holdings_of svc req)
      ∧ NoDup (o_ticker <$> optimized_allocation body)
      ∧ Forall (λ o, is_Some (o_shares o)) (optimized_allocation body)
      ∧ optimized_risk_level body = risk_tolerance req
      ∧ (failed_tickers_of svc req = [] → warning body = volatility_warning body)
      ∧ (failed_tickers_of svc req ≠ [] →
         warning body = Some (warning_failed (failed_tickers_of svc req)))
      ∧ metrics_of svc req = Ok (metrics body)
  | _ => True
  end.
Proof.
  unfold portfolio_body, valid_holdings_of, failed_tickers_of, metrics_of.
  apply bind_200. intros metrics Hmetrics. cbv zeta.
  set (split := split_holdings _ (holdings req)).
  destruct split.1 as [ | h hs] eqn:Evalid; [exact I | ].
  apply bind_200. intros mu_S _. apply bind_200. intros ef0 _.
  apply bind_200. intros chosen _. apply bind_200. intros cleaned _.
  apply bind_200. intros opt_perf _. apply bind_200. intros text _.
  cbn [mret traced_ret fst top_holdings optimized_allocation optimized_risk_level
       warning volatility_warning Route.metrics].
  split; [ | split; [ | split; [ | split; [reflexivity | split; [ | split] ] ] ] ].
  - rewrite fmap_take. f_equal. unfold current_allocation_of.
    rewrite <- list_fmap_compose. reflexivity.
  - rewrite fill_price_shares_ticker. apply merged_NoDup.
  - apply Forall_fmap, Forall_forall. intros o _. unfold fill_price_shares. cbn.
    destruct (o_shares o); eauto.
  - intros ->. reflexivity.
  - intros Hfailed. destruct split.2; [contradiction | reflexivity].
  - exact Hmetrics.
Qed.

(** An answer of status 200. Its top holdings are the first five valid
    holdings, in their order. No ticker comes twice in the optimized
    allocation, the tickers suggested by the analysis included, and every
    entry has a number of shares. The risk level it reports is the one
    asked for, whatever the ladder did. When some ticker failed, [warning]
    names the failed tickers, a volatility warning being left to
    [volatility_warning]; otherwise [warning] is the volatility warning.
    The metrics are those of all the holdings of the request. *)
Theorem portfolio_answer_shape (svc : services) (req : request) :
  match (portfolio svc req).1 with
  | Json200 body =>
      c_ticker <$> top_holdings body = take 5 (ticker <$> valid_holdings_of svc req)
      ∧ NoDup (o_ticker <$> optimized_allocation body)
      ∧ Forall (λ o, is_Some (o_shares o)) (optimized_allocation body)
      ∧ optimized_risk_level body = risk_tolerance req
      ∧ (failed_tickers_of svc req = [] → warning body = volatility_warning body)
      ∧ (failed_tickers_of svc req ≠ [] →
         warning body = Some (warning_failed (failed_tickers_of svc req)))
      ∧ metrics_of svc req = Ok (metrics body)
  | Json400 _ | Json500 _ => True
  end.
Proof.
  unfold portfolio. cbn [fst].
  pose proof (portfolio_body_shape svc req) as H.
  destruct (portfolio_body svc req).1 as [[body | error | details] | e];
    [exact H | exact I | exact I | exact I].
Qed.

End RouteMore.
(** ** The helpers of the other routes *)

Module AppFacts.
Import Py Trace Notions Notions2 NumFacts SumFacts RetryMore App.
Local Open Scope Q_scope.

(** *** [safe_score] *)








(** *** The competitors *)


(** *** The sentiment cache *)

Section cache.
Context (client : string → nat → Groq.outcome) (sentiment_cache : gmap string cache_entry)
  (now : Q) (ticker text : string) (retries : nat) (delay : Q).

Lemma analyze_miss :
  (∀ entry, sentiment_cache !! ticker = Some entry →
            CACHE_DURATION <= now - cached_timestamp entry) →
  ∃ result,
    (Groq.groq_generate_content (client text) 3 1).1 = Ok result
    ∧ analyze_sentiment_with_cache client sentiment_cache now ticker text retries delay
      = ((Ok (result, false), (Groq.groq_generate_content (client text) 3 1).2),
         <[ticker := {| cached_result := result; cached_timestamp := now |}]>
           sentiment_cache).
Proof.
  intros Hold.
  destruct (attempts_bounds (client text) 3 3 0 1) as ((result & Hres) & _).
  fold (Groq.groq_generate_content (client text) 3 1) in Hres.
  exists result. split; [exact Hres | ].
  unfold analyze_sentiment_with_cache. cbv zeta. rewrite Hres.
  destruct (sentiment_cache !! ticker) as [entry | ]; [ | reflexivity].
  assert (Hb : Qltb (now - cached_timestamp entry) CACHE_DURATION = false).
  { apply Qltb_ge, Hold. reflexivity. }
  rewrite Hb. reflexivity.
Qed.

Lemma analyze_hit (entry : cache_entry) :
  sentiment_cache !! ticker = Some entry →
  now - cached_timestamp entry < CACHE_DURATION →
  analyze_sentiment_with_cache client sentiment_cache now ticker text retries delay
  = ((Ok (cached_result entry, true), []), sentiment_cache).
Proof.
  intros Hentry Hfresh. unfold analyze_sentiment_with_cache. cbv zeta. rewrite Hentry.
  rewrite (proj2 (Qltb_lt _ _) Hfresh). reflexivity.
Qed.

(** A call never raises. What it returns is what the cache then holds
    for the ticker, in an entry less than 300 seconds old, the entries of
    the other tickers being left as they were. An answer from the cache
    comes without a call of the Groq client and does not renew the entry;
    any other answer is what [groq_generate_content] gives for the text,
    its failure messages included, stored with the time of the call. The
    arguments [retries] and [delay] have no effect. *)
Theorem analyze_sentiment_with_cache_stores :
  let out :=
    analyze_sentiment_with_cache client sentiment_cache now ticker text retries delay in
  let analysis := Groq.groq_generate_content (client text) 3 1 in
  ∃ result from_cache,
    out.1.1 = Ok (result, from_cache)
    ∧ (∃ entry, out.2 !! ticker = Some entry ∧ cached_result entry = result
                ∧ now - cached_timestamp entry < 300)
    ∧ (∀ t, t ≠ ticker → out.2 !! t = sentiment_cache !! t)
    ∧ (from_cache = true → out = ((Ok (result, true), []), sentiment_cache))
    ∧ (from_cache = false →
       analysis.1 = Ok result
       ∧ out.1.2 = analysis.2
       ∧ out.2 !! ticker = Some {| cached_result := result; cached_timestamp := now |})
    ∧ out = analyze_sentiment_with_cache client sentiment_cache now ticker text 3 1.
Proof.
  cbv zeta.
  assert (Hcases :
    (∃ entry, sentiment_cache !! ticker = Some entry
              ∧ now - cached_timestamp entry < CACHE_DURATION)
    ∨ (∀ entry, sentiment_cache !! ticker = Some entry →
                CACHE_DURATION <= now - cached_timestamp entry)).
  { destruct (sentiment_cache !! ticker) as [entry | ]; [ | right; intros ? H; discriminate H].
    destruct (Qltb (now - cached_timestamp entry) CACHE_DURATION) eqn:E.
    - left. exists entry. split; [reflexivity | apply Qltb_lt, E].
    - right. intros entry' H. injection H as <-. apply Qltb_ge, E. }
  assert (Hsame :
    analyze_sentiment_with_cache client sentiment_cache now ticker text retries delay
    = analyze_sentiment_with_cache client sentiment_cache now ticker text 3 1)
    by reflexivity.
  rewrite <- Hsame. clear Hsame.
  destruct Hcases as [(entry & Hentry & Hfresh) | Hold].
  - rewrite (analyze_hit entry Hentry Hfresh).
    exists (cached_result entry), true. cbn [fst snd].
    split; [reflexivity | ]. split; [exists entry; auto | ].
    split; [reflexivity | ]. split; [reflexivity | ]. split; [discriminate | reflexivity].
  - destruct (analyze_miss Hold) as (result & Hres & ->).
    exists result, false. cbn [fst snd].
    split; [reflexivity | ]. split.
    { eexists. split; [apply lookup_insert_eq | ]. split; [reflexivity | ].
      cbn [cached_timestamp]. lra. }
    split; [intros t Ht; apply lookup_insert_ne; congruence | ].
    split; [discriminate | ].
    split; [intros _; split; [exact Hres | split; [reflexivity | apply lookup_insert_eq] ] | ].
    reflexivity.
Qed.

End cache.

Lemma analyze_sentiment_with_cache_first_entry (client : string → nat → Groq.outcome)
  (sentiment_cache : gmap string cache_entry) (now : Q) (ticker text : string)
  (retries : nat) (delay : Q) (result : string) :
  (analyze_sentiment_with_cache client sentiment_cache now ticker text retries delay).1.1
  = Ok (result, false) →
  (analyze_sentiment_with_cache client sentiment_cache now ticker text retries delay).2
  !! ticker = Some {| cached_result := result; cached_timestamp := now |}.
Proof.
  unfold analyze_sentiment_with_cache. cbv zeta.
  assert (Hcall : ∀ r : traced string,
    (match r.1 with
     | Ok result0 =>
         ((Ok (result0, false), r.2),
          <[ticker := {| cached_result := result0; cached_timestamp := now |}]>
            sentiment_cache)
     | Raise e => ((Raise e, r.2), sentiment_cache)
     end).1.1 = Ok (result, false) →
    (match r.1 with
     | Ok result0 =>
         ((Ok (result0, false), r.2),
          <[ticker := {| cached_result := result0; cached_timestamp := now |}]>
            sentiment_cache)
     | Raise e => ((Raise e, r.2), sentiment_cache)
     end).2 !! ticker = Some {| cached_result := result; cached_timestamp := now |}).
  { intros r. destruct r.1 as [result0 | e]; cbn [fst snd]; [ | discriminate].
    intros H. injection H as ->. apply lookup_insert_eq. }
  destruct (sentiment_cache !! ticker) as [entry | ]; [ | apply Hcall].
  destruct (Qltb _ _); [discriminate | apply Hcall].
Qed.

(** Once an analysis is stored for a ticker, a call for the same ticker
    less than 300 seconds later returns that analysis without calling the
    Groq client and leaves the cache as it is, whatever the text and
    whoever the client; from 300 seconds on the client is asked again. *)
Theorem sentiment_cache_round_trip (client client' : string → nat → Groq.outcome)
  (sentiment_cache : gmap string cache_entry) (now now' : Q) (ticker text text' : string)
  (retries retries' : nat) (delay delay' : Q) (result : string) :
  let first :=
    analyze_sentiment_with_cache client sentiment_cache now ticker text retries delay in
  let second :=
    analyze_sentiment_with_cache client' first.2 now' ticker text' retries' delay' in
  first.1.1 = Ok (result, false) →
  (now' - now < 300 → second = ((Ok (result, true), []), first.2))
  ∧ (300 <= now' - now →
     ∃ result', second.1.1 = Ok (result', false)
                ∧ (Groq.groq_generate_content (client' text') 3 1).1 = Ok result').
Proof.
  cbv zeta. intros Hfirst.
  pose proof (analyze_sentiment_with_cache_first_entry client sentiment_cache now ticker
                text retries delay result Hfirst) as Hentry.
  set (cache' := (analyze_sentiment_with_cache client sentiment_cache now ticker text
                    retries delay).2) in *.
  split.
  - intros Hfresh.
    apply (analyze_hit client' cache' now' ticker text' retries' delay'
             {| cached_result := result; cached_timestamp := now |} Hentry Hfresh).
  - intros Hold.
    destruct (analyze_miss client' cache' now' ticker text' retries' delay')
      as (result' & Hres & ->).
    + intros entry H. rewrite Hentry in H. injection H as <-. exact Hold.
    + exists result'. split; [reflexivity | exact Hres].
Qed.

Lemma sentiment_cache_round_trip_witness :
  (analyze_sentiment_with_cache Examples2.bullish_client ∅ 0 "AAPL" "news of Monday" 3 1).1.1
  = Ok ("Bullish"%string, false)
  ∧ 100 - 0 < 300
  ∧ analyze_sentiment_with_cache Examples2.down_client Examples2.after_monday 100 "AAPL"
      "news of Tuesday" 3 1
    = ((Ok ("Bullish"%string, true), []), Examples2.after_monday).
Proof.
  assert (Hfirst : (analyze_sentiment_with_cache Examples2.bullish_client ∅ 0 "AAPL"
                      "news of Monday" 3 1).1.1 = Ok ("Bullish"%string, false))
    by reflexivity.
  assert (Hfresh : 100 - 0 < 300) by reflexivity.
  split; [exact Hfirst | ]. split; [exact Hfresh | ].
  exact (proj1 (sentiment_cache_round_trip Examples2.bullish_client Examples2.down_client
                  ∅ 0 100 "AAPL" "news of Monday" "news of Tuesday" 3 3 1 1 "Bullish"
                  Hfirst) Hfresh).
Defined.

(** *** The news *)

Lemma length_slice_to {A} (limit : Z) (l : list A) :
  (0 ≤ limit)%Z → (length (slice_to limit l) ≤ Z.to_nat limit)%nat.
Proof.
  intros Hl. unfold slice_to. rewrite (proj2 (Z.leb_le _ _) Hl). apply firstn_le_length.
Qed.

Lemma news_item_of_defaults (a : article) (n : news_item) :
  news_item_of a = Some n → sentiment n = 0 ∧ credibility n = 3%Z.
Proof.
  unfold news_item_of.
  destruct (a_title a), (a_source_name a), (a_publishedAt a), (a_url a);
    cbn; intros H; try discriminate H.
  injection H as <-. split; reflexivity.
Qed.

(** [get_news] never raises. With a limit that is not negative it gives
    at most [limit] items. It gives nothing unless the status is 200 and
    the body can be read; it then gives one item for each of the first
    [limit] articles, in their order, or, as soon as one of these articles
    lacks a key, nothing at all. An article after the first [limit] is
    not looked at. Every item has the sentiment 0 and the credibility 3. *)
Theorem get_news_items (response : news_response) (limit : Z) :
  let news := get_news response limit in
  ((0 ≤ limit)%Z → (length news ≤ Z.to_nat limit)%nat)
  ∧ Forall (λ n, sentiment n = 0 ∧ credibility n = 3%Z) news
  ∧ match response with
    | NewsRaise => news = []
    | NewsStatus status_code articles =>
        if (status_code =? 200)%Z then
          match articles with
          | Some articles =>
              let shown := slice_to limit articles in
              news_item_of <$> shown = Some <$> news
              ∨ (news = [] ∧ ∃ a, a ∈ shown ∧ news_item_of a = None)
          | None => news = []
          end
        else news = []
    end.
Proof.
  cbv zeta. unfold get_news.
  assert (Hnil : ((0 ≤ limit)%Z → (length (@nil news_item) ≤ Z.to_nat limit)%nat)
                 ∧ Forall (λ n, sentiment n = 0 ∧ credibility n = 3%Z) []
                 ∧ @nil news_item = []).
  { split; [intros _; cbn; lia | split; [constructor | reflexivity] ]. }
  destruct response as [ | status_code articles]; [exact Hnil | ].
  destruct (status_code =? 200)%Z; [ | exact Hnil].
  destruct articles as [articles | ]; [ | exact Hnil].
  destruct (mapM news_item_of (slice_to limit articles)) as [news | ] eqn:E;
    cbn [default from_option]; unfold id.
  - pose proof (length_mapM _ _ _ E) as Hlen.
    apply mapM_Some in E.
    split; [intros Hl; rewrite <- Hlen; apply length_slice_to, Hl | ]. split.
    + clear Hlen. induction E as [ | a n shown news Ha _ IH]; constructor; [ | exact IH].
      apply (news_item_of_defaults a n Ha).
    + left. clear Hlen. induction E as [ | a n shown news Ha _ IH]; [reflexivity | ].
      cbn [fmap list_fmap]. rewrite Ha. f_equal. exact IH.
  - split; [intros _; cbn; lia | ]. split; [constructor | ].
    right. split; [reflexivity | ].
    apply mapM_None, Exists_exists in E. exact E.
Qed.

(** *** The quarterly analysis *)

Lemma insert_desc_perm (x : sector_row) (l : list sector_row) :
  insert_desc x l ≡ₚ x :: l.
Proof.
  induction l as [ | y l IH]; [reflexivity | ].
  cbn [insert_desc]. destruct (Qle_bool (performance y) (performance x)); [reflexivity | ].
  rewrite IH. apply Permutation_swap.
Qed.

Lemma sorted_desc_perm (l : list sector_row) : sorted_desc l ≡ₚ l.
Proof.
  induction l as [ | x l IH]; [reflexivity | ].
  unfold sorted_desc in *. cbn [foldr]. rewrite insert_desc_perm, IH. reflexivity.
Qed.

Lemma insert_desc_decreasing (x : sector_row) (l : list sector_row) :
  decreasing l → decreasing (insert_desc x l).
Proof.
  induction l as [ | y l IH]; intros Hl.
  - cbn. split; [constructor | exact I].
  - cbn [insert_desc]. destruct Hl as [Hy Hl].
    destruct (Qle_bool (performance y) (performance x)) eqn:E.
    + apply Qle_bool_iff in E. split; [ | split; assumption].
      constructor; [exact E | ].
      apply Forall_forall. intros z Hz.
      rewrite Forall_forall in Hy. specialize (Hy z Hz). lra.
    + assert (Hlt : performance x < performance y).
      { apply Qnot_le_lt. intros H. apply Qle_bool_iff in H. congruence. }
      split; [ | apply IH, Hl].
      rewrite insert_desc_perm. constructor; [lra | exact Hy].
Qed.

Lemma sorted_desc_decreasing (l : list sector_row) : decreasing (sorted_desc l).
Proof.
  induction l as [ | x l IH]; [exact I | ].
  unfold sorted_desc in *. cbn [foldr]. apply insert_desc_decreasing, IH.
Qed.

Section rows.
Context (history : string → result (list Q)).

Lemma sector_rows_names (l : list string) :
  name <$> (l ≫= sector_rows_of history) `sublist_of` l.
Proof.
  induction l as [ | s l IH]; [constructor | ].
  cbn [mbind list_bind]. rewrite fmap_app.
  unfold sector_rows_of at 1.
  destruct (history s) as [closes | e]; [ | apply sublist_cons, IH].
  destruct (change_pct closes); [apply sublist_skip, IH | apply sublist_cons, IH].
Qed.

Lemma sector_rows_complete (l : list string) (s : string) (c : Q) (cs : list Q) :
  s ∈ l → history s = Ok (c :: cs) →
  {| name := s; performance := (default c (last (c :: cs)) / c - 1) * 100 |}
  ∈ l ≫= sector_rows_of history.
Proof.
  intros Hin Hs. apply list_elem_of_bind. exists s. split; [ | exact Hin].
  unfold sector_rows_of. rewrite Hs. cbn [change_pct]. apply list_elem_of_here.
Qed.

Lemma sector_rows_none (l : list string) :
  (∀ s, s ∈ l → ¬ has_history history s) → l ≫= sector_rows_of history = [].
Proof.
  induction l as [ | s l IH]; intros Hnone; [reflexivity | ].
  cbn [mbind list_bind]. rewrite IH by (intros s' Hs'; apply Hnone, list_elem_of_further, Hs').
  unfold sector_rows_of.
  destruct (history s) as [ [ | c cs] | e] eqn:E; try reflexivity.
  exfalso. apply (Hnone s (list_elem_of_here _ _)). exists c, cs. exact E.
Qed.

End rows.

(** The answer of the quarterly analysis is an error exactly when the
    history of SPY cannot be read. Otherwise the sectors come in the order
    of decreasing performance, each of the five sectors at most once: those
    that have a history, each with its change over the period, or, when
    none has one, all five with a performance of 0 in the order of the
    table. The trend is Bullish exactly when the performance of SPY is
    above 0, a flat market counting as Bearish. *)
Theorem quarterly_top_sectors (history : string → result (list Q)) :
  match quarterly history with
  | Quarterly200 body =>
      (∃ spy_hist, history "SPY"%string = Ok spy_hist
                   ∧ spy_performance body = default 0 (change_pct spy_hist))
      ∧ decreasing (top_sectors body)
      ∧ NoDup (name <$> top_sectors body)
      ∧ (1 ≤ length (top_sectors body) ≤ 5)%nat
      ∧ (∀ s, s ∈ (name <$> top_sectors body) → s ∈ sectors)
      ∧ (∀ s c cs, s ∈ sectors → history s = Ok (c :: cs) →
           {| name := s; performance := (default c (last (c :: cs)) / c - 1) * 100 |}
           ∈ top_sectors body)
      ∧ ((∃ s, s ∈ sectors ∧ has_history history s) →
         ∀ s, s ∈ (name <$> top_sectors body) → has_history history s)
      ∧ ((∀ s, s ∈ sectors → ¬ has_history history s) →
         top_sectors body = (λ s, {| name := s; performance := 0 |}) <$> sectors)
      ∧ (market_trend body = "Bullish"%string ↔ 0 < spy_performance body)
      ∧ (market_trend body = "Bearish"%string ↔ spy_performance body <= 0)
  | Quarterly500 error => ∃ e, history "SPY"%string = Raise e ∧ error = exn_str e
  end.
Proof.
  unfold quarterly.
  destruct (history "SPY"%string) as [spy_hist | e] eqn:Espy; [ | eauto].
  cbv zeta. cbn [spy_performance top_sectors market_trend].
  set (rows := sectors ≫= sector_rows_of history).
  set (fallback := (λ s, {| name := s; performance := 0 |}) <$> sectors).
  set (chosen := match rows with [] => fallback | _ => rows end).
  assert (Hnodup : NoDup sectors) by (apply (bool_decide_unpack _); vm_compute; exact I).
  assert (Hsub : name <$> chosen `sublist_of` sectors).
  { unfold chosen. destruct rows eqn:E; [reflexivity | ].
    rewrite <- E. apply sector_rows_names. }
  assert (Hlen : (1 ≤ length chosen)%nat).
  { unfold chosen. destruct rows; cbn; lia. }
  assert (Hperm : sorted_desc chosen ≡ₚ chosen) by apply sorted_desc_perm.
  assert (Hnames : name <$> sorted_desc chosen ≡ₚ name <$> chosen)
    by (rewrite Hperm; reflexivity).
  split; [eauto | ]. split; [apply sorted_desc_decreasing | ].
  split; [rewrite Hnames; apply (sublist_NoDup _ _ Hnodup Hsub) | ].
  split.
  { rewrite Hperm. split; [exact Hlen | ].
    apply sublist_length in Hsub. rewrite length_fmap in Hsub. exact Hsub. }
  split.
  { intros s Hs. rewrite Hnames in Hs. apply (elem_of_sublist _ _ _ Hs Hsub). }
  split.
  { intros s c cs Hs Hdata. rewrite Hperm.
    pose proof (sector_rows_complete history sectors s c cs Hs Hdata) as Hin.
    fold rows in Hin. unfold chosen. destruct rows; [inversion Hin | exact Hin]. }
  split.
  { intros (s0 & Hs0 & c & cs & Hdata) s Hs. rewrite Hnames in Hs.
    pose proof (sector_rows_complete history sectors s0 c cs Hs0 Hdata) as Hin.
    fold rows in Hin. unfold chosen in Hs.
    destruct rows as [ | r rows'] eqn:E; [inversion Hin | ]. rewrite <- E in Hs.
    apply list_elem_of_fmap in Hs as (row & -> & Hrow).
    unfold rows in Hrow. apply list_elem_of_bind in Hrow as (s' & Hrow & _).
    unfold sector_rows_of in Hrow.
    destruct (history s') as [ [ | c' cs'] | e'] eqn:E'; try (inversion Hrow; fail).
    cbn [change_pct] in Hrow. apply list_elem_of_singleton in Hrow. subst row.
    cbn [name]. exists c', cs'. exact E'. }
  split.
  { intros Hnone. unfold chosen, rows. rewrite (sector_rows_none history sectors Hnone).
    reflexivity. }
  destruct (Qltb 0 (default 0 (change_pct spy_hist))) eqn:E.
  - apply Qltb_lt in E. split; split; try reflexivity; try discriminate; try (intros _; exact E).
    intros H. lra.
  - apply Qltb_ge in E. split; split; try reflexivity; try discriminate; try (intros _; exact E).
    intros H. lra.
Qed.

End AppFacts.
